(** * Recipe-sharing backend: accounts, bearer tokens and owner-scoped recipes

    A shallow embedding of [backend/src/index.ts] and [backend/src/models/user.ts]:
    the Express route handlers become functions in a small state-and-exception
    monad over the two MongoDB collections, and the libraries the handlers call
    (bson's [ObjectId], bcrypt, jsonwebtoken) are an interface the development
    is parametric in. *)

From Stdlib Require Import String Ascii List NArith ZArith Bool Lia.
Import ListNotations.
Open Scope string_scope.

(** ** JavaScript values *)

(** A BSON object id is a 12-byte value; it is kept as the number it denotes. *)
Definition ObjectId := N.

(** Values found in a parsed JSON body, in a stored document or in a response.
    Numbers are integers here: the handlers only test a number for truthiness
    or pass it on. *)
#[warnings="-register-all"]
Inductive jsval : Type :=
| JUndefined
| JNull
| JBool (b : bool)
| JNum (z : Z)
| JStr (s : string)
| JOid (o : ObjectId)
| JArr (items : list jsval)
| JObj (props : list (string * jsval)).

(** [!v] is [negb (truthy v)]. *)
Definition truthy (v : jsval) : bool :=
  match v with
  | JUndefined | JNull => false
  | JBool b => b
  | JNum z => negb (z =? 0)%Z
  | JStr s => negb (s =? "")
  | JOid _ | JArr _ | JObj _ => true
  end.

Definition Array_isArray (v : jsval) : bool :=
  match v with JArr _ => true | _ => false end.

(** [v !== undefined] *)
Definition defined (v : jsval) : bool :=
  match v with JUndefined => false | _ => true end.

(** Own property [k] of an object literal, [JUndefined] when there is none. *)
Fixpoint get_prop (k : string) (props : list (string * jsval)) : jsval :=
  match props with
  | [] => JUndefined
  | (k', v) :: rest => if k' =? k then v else get_prop k rest
  end.

Fixpoint has_prop (k : string) (props : list (string * jsval)) : bool :=
  match props with
  | [] => false
  | (k', _) :: rest => (k' =? k) || has_prop k rest
  end.

(** [(body ?? {}).k]: a nullish body, an array or a primitive has none of the
    keys the handlers read. *)
Definition field (body : jsval) (k : string) : jsval :=
  match body with
  | JObj props => get_prop k props
  | _ => JUndefined
  end.

(** [h.startsWith(p)] and [h.slice(n)] on strings. *)
Definition startsWith (h p : string) : bool := String.prefix p h.

Fixpoint slice (n : nat) (s : string) : string :=
  match n, s with
  | O, _ => s
  | S n', String _ rest => slice n' rest
  | S _, EmptyString => EmptyString
  end.

(** ** Documents *)

Module User.
(** [WithId<IUser>]. [username] and [email] are stored as the register route
    received them, whatever JSON value that was; [password] is a bcrypt hash. *)
Record t := mk { _id : ObjectId; username : jsval; email : jsval; password : string }.

Definition toObject (u : t) : list (string * jsval) :=
  [ ("_id", JOid (_id u)); ("username", username u);
    ("email", email u); ("password", JStr (password u)) ].
End User.

Module Recipe.
(** [WithId<IRecipe>]; the body fields are stored as they were received. *)
Record t := mk {
  _id : ObjectId;
  title : jsval;
  description : jsval;
  ingredients : jsval;
  instructions : jsval;
  ownerId : ObjectId;
  ownerUsername : jsval }.

Definition toObject (r : t) : jsval :=
  JObj [ ("_id", JOid (_id r)); ("title", title r); ("description", description r);
         ("ingredients", ingredients r); ("instructions", instructions r);
         ("ownerId", JOid (ownerId r)); ("ownerUsername", ownerUsername r) ].
End Recipe.

Module Jwt.
(** The claims the handlers read from a verified token; [username] and
    [email] are [JUndefined] in a token that has none. *)
Record Payload := mk { sub : option string; username : jsval; email : jsval }.
End Jwt.

(** [sanitizeUser]: [const { password, ...rest } = user; return rest]. *)
Fixpoint sanitizeUser (user : list (string * jsval)) : list (string * jsval) :=
  match user with
  | [] => []
  | (k, v) :: rest =>
      if k =? "password" then sanitizeUser rest else (k, v) :: sanitizeUser rest
  end.

(** ** The libraries the handlers call

    bson, bcrypt and jsonwebtoken are not part of the program; the routes are
    stated over any behaviour of theirs. A call that can throw returns an
    option. [jwt_verify] stands for verification at the instant of the
    request, so the middleware and the handler behind it see the same
    verdict. *)

Class Libraries := {
  (** [new ObjectId(s)]; [None] when the constructor throws *)
  ObjectId_new : string -> option ObjectId;
  (** [id.toString()] *)
  ObjectId_toString : ObjectId -> string;
  (** [bcrypt.hash(data, salt)] on a string *)
  bcrypt_hash : string -> string -> string;
  (** [bcrypt.compare(data, hash)] on a string *)
  bcrypt_compare : string -> string -> bool;
  (** [jwt.verify(token, secret)]; [None] when it throws *)
  jwt_verify : string -> string -> option Jwt.Payload;
  (** [jwt.sign(payload, secret, { expiresIn: "1h", jwtid })] *)
  jwt_sign : Jwt.Payload -> string -> string -> string;
  (** What a query [{ field: cond }] asks of the value stored in the field,
      for a [cond] that is not a string: a literal to equal, or operators
      such as [{ $ne: null }]. [None] when the server refuses the query. *)
  mongo_condition : jsval -> option (jsval -> bool) }.

(** What a request draws from outside the program: the salt of
    [bcrypt.genSalt(10)], the [randomUUID()] and the [_id] the driver gives an
    inserted document. *)
Record Entropy := { genSalt : string; randomUUID : string; insertedId : ObjectId }.

(** [process.env] *)
Record Env := { JWT_SECRET : option string }.

Record Request := {
  authorization : option string;   (* req.header("Authorization") *)
  params_id : string;              (* req.params.id *)
  body : jsval }.                  (* req.body *)

(** [const { username, email, password } = req.body ?? {}] of the two account
    routes. Nothing checks the types [IUser] declares: each field is whatever
    JSON value the body holds, [JUndefined] when it holds none. *)
Record Credentials := {
  username : jsval;
  email : jsval;
  password : jsval }.

Definition credentials (body : jsval) : Credentials :=
  {| username := field body "username";
     email := field body "email";
     password := field body "password" |}.

Record Response := { status : nat; json : jsval }.

Definition message (m : string) : jsval := JObj [("message", JStr m)].

(** [res.status(code).json(b)] *)
Definition respond (code : nat) (b : jsval) : Response := {| status := code; json := b |}.

(** ** The document store *)

Record Store := { users : list User.t; recipes : list Recipe.t }.

Section Collection.
Variable D : Type.
Variable id_of : D -> ObjectId.

Definition findOne (q : D -> bool) (c : list D) : option D := find q c.

(** [insertOne]: [None] is the duplicate-key error on [_id]. *)
Definition insertOne (d : D) (c : list D) : option (list D) :=
  if existsb (fun d' => (id_of d' =? id_of d)%N) c then None else Some (c ++ [d])%list.

(** [updateOne]: the first match is updated; the count is [matchedCount]. *)
Fixpoint updateOne (q : D -> bool) (f : D -> D) (c : list D) : nat * list D :=
  match c with
  | [] => (0, [])
  | d :: rest =>
      if q d then (1, f d :: rest)
      else let (n, rest') := updateOne q f rest in (n, d :: rest')
  end.

(** [deleteOne]: the first match is removed; the count is [deletedCount]. *)
Fixpoint deleteOne (q : D -> bool) (c : list D) : nat * list D :=
  match c with
  | [] => (0, [])
  | d :: rest =>
      if q d then (1, rest)
      else let (n, rest') := deleteOne q rest in (n, d :: rest')
  end.

Definition deleteMany (q : D -> bool) (c : list D) : list D :=
  filter (fun d => negb (q d)) c.
End Collection.

Arguments findOne {D}.
Arguments insertOne {D}.
Arguments updateOne {D}.
Arguments deleteOne {D}.
Arguments deleteMany {D}.

(** ** Handlers as stateful computations that may throw *)

Inductive completion (A : Type) : Type :=
| Returned (a : A)
| Thrown.
Arguments Returned {A}.
Arguments Thrown {A}.

Definition M (A : Type) : Type := Store -> completion A * Store.

Definition ret {A} (a : A) : M A := fun st => (Returned a, st).

Definition bind {A B} (m : M A) (k : A -> M B) : M B :=
  fun st =>
    match m st with
    | (Returned a, st') => k a st'
    | (Thrown, st') => (Thrown, st')
    end.

Definition throw {A} : M A := fun st => (Thrown, st).

(** [try { body } catch { handler }] *)
Definition try_catch {A} (body handler : M A) : M A :=
  fun st =>
    match body st with
    | (Returned a, st') => (Returned a, st')
    | (Thrown, st') => handler st'
    end.

(** A library call that throws when it has no result. *)
Definition attempt {A} (o : option A) : M A :=
  match o with Some a => ret a | None => throw end.

Notation "x <- m ;; k" := (bind m (fun x => k))
  (at level 61, m at next level, right associativity).

Definition users_findOne (q : User.t -> bool) : M (option User.t) :=
  fun st => (Returned (findOne q (users st)), st).

Definition users_insertOne (d : User.t) : M ObjectId :=
  fun st =>
    match insertOne User._id d (users st) with
    | Some c => (Returned (User._id d), {| users := c; recipes := recipes st |})
    | None => (Thrown, st)
    end.

Definition users_deleteOne (q : User.t -> bool) : M nat :=
  fun st =>
    let (n, c) := deleteOne q (users st) in
    (Returned n, {| users := c; recipes := recipes st |}).

Definition recipes_findOne (q : Recipe.t -> bool) : M (option Recipe.t) :=
  fun st => (Returned (findOne q (recipes st)), st).

Definition recipes_find_all : M (list Recipe.t) :=
  fun st => (Returned (recipes st), st).

Definition recipes_insertOne (d : Recipe.t) : M ObjectId :=
  fun st =>
    match insertOne Recipe._id d (recipes st) with
    | Some c => (Returned (Recipe._id d), {| users := users st; recipes := c |})
    | None => (Thrown, st)
    end.

Definition recipes_updateOne (q : Recipe.t -> bool) (f : Recipe.t -> Recipe.t) : M nat :=
  fun st =>
    let (n, c) := updateOne q f (recipes st) in
    (Returned n, {| users := users st; recipes := c |}).

Definition recipes_deleteOne (q : Recipe.t -> bool) : M nat :=
  fun st =>
    let (n, c) := deleteOne q (recipes st) in
    (Returned n, {| users := users st; recipes := c |}).

Definition recipes_deleteMany (q : Recipe.t -> bool) : M unit :=
  fun st => (Returned tt, {| users := users st; recipes := deleteMany q (recipes st) |}).

(** ** The routes *)

Section Routes.
Context {lib : Libraries}.

(** [ObjectId.isValid(s)]: whether the constructor accepts [s]. *)
Definition ObjectId_isValid (s : string) : bool :=
  match ObjectId_new s with Some _ => true | None => false end.

(** bcrypt takes its data as a string (or a Buffer, which a JSON body cannot
    hold) and throws on any other value. *)
Definition bcrypt_data (v : jsval) : option string :=
  match v with JStr s => Some s | _ => None end.

(** [hashPassword] of models/user.ts, with the salt [bcrypt.genSalt(10)] drew;
    [None] when [bcrypt.hash] throws. *)
Definition hashPassword (rnd : Entropy) (plainPassword : jsval) : option string :=
  match bcrypt_data plainPassword with
  | Some data => Some (bcrypt_hash data (genSalt rnd))
  | None => None
  end.

(** [comparePassword] of models/user.ts; [None] when [bcrypt.compare] throws. *)
Definition comparePassword (candidatePassword : jsval) (hashedPassword : string)
    : option bool :=
  match bcrypt_data candidatePassword with
  | Some data => Some (bcrypt_compare data hashedPassword)
  | None => None
  end.

(** [authHeader?.startsWith("Bearer ") ? authHeader.slice(7) : undefined] *)
Definition bearer (authHeader : option string) : option string :=
  match authHeader with
  | Some h => if startsWith h "Bearer " then Some (slice 7 h) else None
  | None => None
  end.

(** The middleware: [inl] is the response it sends, [inr tt] is [next()]. *)
Definition requireAuth (env : Env) (req : Request) : Response + unit :=
  match bearer (authorization req) with
  | None | Some "" => inl (respond 401 (message "Missing token"))
  | Some token =>
      match JWT_SECRET env with
      | None | Some "" => inl (respond 500 (message "JWT secret not configured"))
      | Some secret =>
          match jwt_verify token secret with
          | Some _ => inr tt
          | None => inl (respond 401 (message "Invalid token"))
          end
      end
  end.

(** [app.METHOD(path, requireAuth, handler)] *)
Definition protected (env : Env) (req : Request) (handler : M Response) : M Response :=
  match requireAuth env req with
  | inl r => ret r
  | inr _ => handler
  end.

(** The opening every protected handler repeats: it reads the token again
    and checks the secret before anything else. *)
Definition with_token (env : Env) (req : Request)
    (k : string -> string -> M Response) : M Response :=
  match bearer (authorization req) with
  | None | Some "" => ret (respond 401 (message "Missing token"))
  | Some token =>
      match JWT_SECRET env with
      | None | Some "" => ret (respond 500 (message "JWT secret not configured"))
      | Some secret => k token secret
      end
  end.

(** [{ field: "q" }]: the stored value is the string [q], or an array that
    has it among its elements. *)
Definition matches_string (q : string) (stored : jsval) : bool :=
  match stored with
  | JStr s => s =? q
  | JArr items => existsb (fun v => match v with JStr s => s =? q | _ => false end) items
  | _ => false
  end.

(** [{ field: cond }] for the value the body gave. *)
Definition condition (cond : jsval) : option (jsval -> bool) :=
  match cond with
  | JStr q => Some (matches_string q)
  | _ => mongo_condition cond
  end.

(** The filter [{ $or: [{ username }, { email }] }]; [None] when the server
    refuses it, and [findOne] throws. *)
Definition or_username_email (username email : jsval) : option (User.t -> bool) :=
  match condition username, condition email with
  | Some p, Some q => Some (fun u => p (User.username u) || q (User.email u))
  | _, _ => None
  end.

(** The [try] block of the register handler. *)
Definition register_attempt (rnd : Entropy) (username email password : jsval) : M Response :=
  try_catch
    (filter <- attempt (or_username_email username email) ;;
     existing <- users_findOne filter ;;
     match existing with
     | Some _ => ret (respond 409 (message "User already exists"))
     | None =>
         hashed <- attempt (hashPassword rnd password) ;;
         inserted <- users_insertOne (User.mk (insertedId rnd) username email hashed) ;;
         created <- users_findOne (fun u => (User._id u =? inserted)%N) ;;
         match created with
         | None => ret (respond 500 (message "Registration failed"))
         | Some created => ret (respond 201 (JObj (sanitizeUser (User.toObject created))))
         end
     end)
    (ret (respond 500 (message "Registration failed"))).

(** POST /api/register *)
Definition register_handler (rnd : Entropy) (b : Credentials) : M Response :=
  if negb (truthy (username b)) || negb (truthy (email b)) || negb (truthy (password b))
  then ret (respond 400 (message "Missing required fields"))
  else register_attempt rnd (username b) (email b) (password b).

(** [username ?? email] *)
Definition identifier_of (b : Credentials) : jsval :=
  match username b with
  | JUndefined | JNull => email b
  | username => username
  end.

(** The [try] block of the login handler. *)
Definition login_attempt (rnd : Entropy) (identifier password : jsval) (secret : string)
    : M Response :=
  try_catch
    (filter <- attempt (or_username_email identifier identifier) ;;
     user <- users_findOne filter ;;
     match user with
     | None => ret (respond 401 (message "Invalid credentials"))
     | Some user =>
         ok <- attempt (comparePassword password (User.password user)) ;;
         if negb ok
         then ret (respond 401 (message "Invalid credentials"))
         else
           let token :=
             jwt_sign
               (Jwt.mk (Some (ObjectId_toString (User._id user)))
                       (User.username user) (User.email user))
               secret (randomUUID rnd) in
           ret (respond 200
                  (JObj [ ("user", JObj (sanitizeUser (User.toObject user)));
                          ("token", JStr token) ]))
     end)
    (ret (respond 500 (message "Login failed"))).

(** POST /api/login *)
Definition login_handler (env : Env) (rnd : Entropy) (b : Credentials) : M Response :=
  let identifier := identifier_of b in
  if negb (truthy identifier) || negb (truthy (password b))
  then ret (respond 400 (message "Missing required fields"))
  else
    match JWT_SECRET env with
    | None | Some "" => ret (respond 500 (message "JWT secret not configured"))
    | Some secret => login_attempt rnd identifier (password b) secret
    end.

(** GET /api/token-test *)
Definition token_test (env : Env) (req : Request) : M Response :=
  protected env req (ret (respond 200 (message "Token is valid"))).

(** A value as the driver stores it: [undefined] is written as [null]. *)
Definition stored (v : jsval) : jsval :=
  match v with JUndefined => JNull | _ => v end.

(** POST /api/recipes, after the middleware *)
Definition create_recipe_handler (env : Env) (rnd : Entropy) (req : Request) : M Response :=
  with_token env req (fun token secret =>
    let title := field (body req) "title" in
    let description := field (body req) "description" in
    let ingredients := field (body req) "ingredients" in
    let instructions := field (body req) "instructions" in
    if negb (truthy title) || negb (truthy description)
       || negb (Array_isArray ingredients) || negb (truthy instructions)
    then ret (respond 400 (message "Missing or invalid fields"))
    else
      try_catch
        (payload <- attempt (jwt_verify token secret) ;;
         match Jwt.sub payload with
         | None | Some "" => ret (respond 401 (message "Invalid token"))
         | Some sub =>
             ownerId <- attempt (ObjectId_new sub) ;;
             inserted <- recipes_insertOne
               (Recipe.mk (insertedId rnd) title description ingredients instructions
                          ownerId (stored (Jwt.username payload))) ;;
             created <- recipes_findOne (fun r => (Recipe._id r =? inserted)%N) ;;
             match created with
             | None => ret (respond 500 (message "Recipe creation failed"))
             | Some created => ret (respond 201 (Recipe.toObject created))
             end
         end)
        (ret (respond 500 (message "Recipe creation failed")))).

Definition create_recipe (env : Env) (rnd : Entropy) (req : Request) : M Response :=
  protected env req (create_recipe_handler env rnd req).

(** The update object the PATCH handler builds from the body; [inl] is the
    response of an early return. *)
Definition build_update (b : jsval) : Response + list (string * jsval) :=
  let title := field b "title" in
  let description := field b "description" in
  let ingredients := field b "ingredients" in
  let instructions := field b "instructions" in
  let update := [] in
  let update := if defined title then (update ++ [("title", title)])%list else update in
  let update :=
    if defined description then (update ++ [("description", description)])%list else update in
  if defined ingredients && negb (Array_isArray ingredients)
  then inl (respond 400 (message "Invalid ingredients"))
  else
    let update :=
      if defined ingredients then (update ++ [("ingredients", ingredients)])%list else update in
    let update :=
      if defined instructions then (update ++ [("instructions", instructions)])%list
      else update in
    if (List.length update =? 0)%nat
    then inl (respond 400 (message "No valid fields to update"))
    else inr update.

(** [{ $set: update }] on one document *)
Definition set_field (r : Recipe.t) (kv : string * jsval) : Recipe.t :=
  let (k, v) := kv in
  if k =? "title" then
    Recipe.mk (Recipe._id r) v (Recipe.description r) (Recipe.ingredients r)
              (Recipe.instructions r) (Recipe.ownerId r) (Recipe.ownerUsername r)
  else if k =? "description" then
    Recipe.mk (Recipe._id r) (Recipe.title r) v (Recipe.ingredients r)
              (Recipe.instructions r) (Recipe.ownerId r) (Recipe.ownerUsername r)
  else if k =? "ingredients" then
    Recipe.mk (Recipe._id r) (Recipe.title r) (Recipe.description r) v
              (Recipe.instructions r) (Recipe.ownerId r) (Recipe.ownerUsername r)
  else if k =? "instructions" then
    Recipe.mk (Recipe._id r) (Recipe.title r) (Recipe.description r) (Recipe.ingredients r)
              v (Recipe.ownerId r) (Recipe.ownerUsername r)
  else r.

Definition apply_set (update : list (string * jsval)) (r : Recipe.t) : Recipe.t :=
  fold_left set_field update r.

(** The filter [{ _id: recipeId, ownerId }] *)
Definition owned_by (recipeId ownerId : ObjectId) (r : Recipe.t) : bool :=
  (Recipe._id r =? recipeId)%N && (Recipe.ownerId r =? ownerId)%N.

(** PATCH /api/recipes/:id, after the middleware *)
Definition patch_recipe_handler (env : Env) (req : Request) : M Response :=
  with_token env req (fun token secret =>
    match build_update (body req) with
    | inl early => ret early
    | inr update =>
        try_catch
          (payload <- attempt (jwt_verify token secret) ;;
           match Jwt.sub payload with
           | None | Some "" => ret (respond 401 (message "Invalid token"))
           | Some sub =>
               ownerId <- attempt (ObjectId_new sub) ;;
               let recipeIdParam := params_id req in
               if negb (ObjectId_isValid recipeIdParam)
               then ret (respond 400 (message "Invalid recipe id"))
               else
                 recipeId <- attempt (ObjectId_new recipeIdParam) ;;
                 matchedCount <- recipes_updateOne (owned_by recipeId ownerId)
                                                   (apply_set update) ;;
                 if (matchedCount =? 0)%nat
                 then ret (respond 404 (message "Recipe not found"))
                 else
                   updated <- recipes_findOne (fun r => (Recipe._id r =? recipeId)%N) ;;
                   match updated with
                   | None => ret (respond 500 (message "Recipe update failed"))
                   | Some updated => ret (respond 200 (Recipe.toObject updated))
                   end
           end)
          (ret (respond 500 (message "Recipe update failed")))
    end).

Definition patch_recipe (env : Env) (req : Request) : M Response :=
  protected env req (patch_recipe_handler env req).

(** DELETE /api/account, after the middleware *)
Definition delete_account_handler (env : Env) (req : Request) : M Response :=
  with_token env req (fun token secret =>
    try_catch
      (payload <- attempt (jwt_verify token secret) ;;
       match Jwt.sub payload with
       | None | Some "" => ret (respond 401 (message "Invalid token"))
       | Some sub =>
           userId <- attempt (ObjectId_new sub) ;;
           _ <- recipes_deleteMany (fun r => (Recipe.ownerId r =? userId)%N) ;;
           deletedCount <- users_deleteOne (fun u => (User._id u =? userId)%N) ;;
           if (deletedCount =? 0)%nat
           then ret (respond 404 (message "User not found"))
           else ret (respond 200 (message "Account deleted"))
       end)
      (ret (respond 500 (message "Account deletion failed")))).

Definition delete_account (env : Env) (req : Request) : M Response :=
  protected env req (delete_account_handler env req).

(** DELETE /api/recipes/:id, after the middleware *)
Definition delete_recipe_handler (env : Env) (req : Request) : M Response :=
  with_token env req (fun token secret =>
    try_catch
      (payload <- attempt (jwt_verify token secret) ;;
       match Jwt.sub payload with
       | None | Some "" => ret (respond 401 (message "Invalid token"))
       | Some sub =>
           ownerId <- attempt (ObjectId_new sub) ;;
           let recipeIdParam := params_id req in
           recipeId <- attempt (ObjectId_new recipeIdParam) ;;
           deletedCount <- recipes_deleteOne (owned_by recipeId ownerId) ;;
           if (deletedCount =? 0)%nat
           then ret (respond 404 (message "Recipe not found"))
           else ret (respond 200 (message "Recipe deleted"))
       end)
      (ret (respond 500 (message "Recipe deletion failed")))).

Definition delete_recipe (env : Env) (req : Request) : M Response :=
  protected env req (delete_recipe_handler env req).

(** GET /api/recipes/:id *)
Definition get_recipe (req : Request) : M Response :=
  try_catch
    (let recipeIdParam := params_id req in
     recipeId <- attempt (ObjectId_new recipeIdParam) ;;
     item <- recipes_findOne (fun r => (Recipe._id r =? recipeId)%N) ;;
     match item with
     | None => ret (respond 404 (message "Recipe not found"))
     | Some item => ret (respond 200 (Recipe.toObject item))
     end)
    (ret (respond 400 (message "Invalid recipe id"))).

(** GET /api/recipes *)
Definition get_recipes : M Response :=
  try_catch
    (items <- recipes_find_all ;;
     ret (respond 200 (JArr (map Recipe.toObject items))))
    (ret (respond 500 (message "Failed to fetch recipes"))).

(** A setting that is there and is not the empty string. *)
Definition given (o : option string) (s : string) : Prop := o = Some s /\ s <> "".

(** A body field that holds a string other than the empty one. *)
Definition sent (v : jsval) (s : string) : Prop := v = JStr s /\ s <> "".

(** The recognised fields a PATCH body carries, in the order the handler
    reads them. *)
Definition present_fields (b : jsval) : list (string * jsval) :=
  filter (fun kv => defined (snd kv))
    [ ("title", field b "title"); ("description", field b "description");
      ("ingredients", field b "ingredients"); ("instructions", field b "instructions") ].

(** The account a request acts for: the subject of its verified bearer token,
    read as the handlers read it. *)
Definition subject (env : Env) (req : Request) : option ObjectId :=
  match bearer (authorization req) with
  | None | Some "" => None
  | Some token =>
      match JWT_SECRET env with
      | None | Some "" => None
      | Some secret =>
          match jwt_verify token secret with
          | None => None
          | Some payload =>
              match Jwt.sub payload with
              | None | Some "" => None
              | Some sub => ObjectId_new sub
              end
          end
      end
  end.
End Routes.

(** Requests served one after the other, each on the store the last one
    left; the responses come back in order. *)
Fixpoint run (steps : list (M Response)) (st : Store) : list (completion Response) * Store :=
  match steps with
  | [] => ([], st)
  | step :: rest =>
      let (r, st') := step st in
      let (rs, st'') := run rest st' in
      (r :: rs, st'')
  end.

(** ** The route table *)

(** A request as [app.METHOD(path, ...)] dispatches it. *)
Inductive Call : Type :=
| PostRegister (b : Credentials)     (* POST /api/register *)
| PostLogin (b : Credentials)        (* POST /api/login *)
| GetTokenTest (req : Request)       (* GET /api/token-test *)
| PostRecipe (req : Request)         (* POST /api/recipes *)
| PatchRecipe (req : Request)        (* PATCH /api/recipes/:id *)
| DeleteAccount (req : Request)      (* DELETE /api/account *)
| DeleteRecipe (req : Request)       (* DELETE /api/recipes/:id *)
| GetRecipe (req : Request)          (* GET /api/recipes/:id *)
| GetRecipes.                        (* GET /api/recipes *)

Section Router.
Context {lib : Libraries}.

Definition serve (env : Env) (rnd : Entropy) (call : Call) : M Response :=
  match call with
  | PostRegister b => register_handler rnd b
  | PostLogin b => login_handler env rnd b
  | GetTokenTest req => token_test env req
  | PostRecipe req => create_recipe env rnd req
  | PatchRecipe req => patch_recipe env req
  | DeleteAccount req => delete_account env req
  | DeleteRecipe req => delete_recipe env req
  | GetRecipe req => get_recipe req
  | GetRecipes => get_recipes
  end.

(** The account a call acts for, on the routes behind [requireAuth]. *)
Definition caller (env : Env) (call : Call) : option ObjectId :=
  match call with
  | GetTokenTest req | PostRecipe req | PatchRecipe req
  | DeleteAccount req | DeleteRecipe req => subject env req
  | PostRegister _ | PostLogin _ | GetRecipe _ | GetRecipes => None
  end.

(** The status codes each handler passes to [res.status]. *)
Definition statuses (call : Call) : list nat :=
  match call with
  | PostRegister _ => [201; 400; 409; 500]
  | PostLogin _ => [200; 400; 401; 500]
  | GetTokenTest _ => [200; 401; 500]
  | PostRecipe _ => [201; 400; 401; 500]
  | PatchRecipe _ => [200; 400; 401; 404; 500]
  | DeleteAccount _ => [200; 401; 404; 500]
  | DeleteRecipe _ => [200; 401; 404; 500]
  | GetRecipe _ => [200; 400; 404]
  | GetRecipes => [200; 500]
  end.

(** A sequence of calls, each with what it draws, served in order. *)
Fixpoint serve_all (env : Env) (calls : list (Entropy * Call)) (st : Store) : Store :=
  match calls with
  | [] => st
  | (rnd, call) :: rest => serve_all env rest (snd (serve env rnd call st))
  end.
End Router.

(** The strings among some values, in order. *)
Fixpoint strings_of (vs : list jsval) : list string :=
  match vs with
  | [] => []
  | JStr s :: rest => s :: strings_of rest
  | _ :: rest => strings_of rest
  end.

(** Identifiers are unique in each collection, and no two accounts share a
    username that is a string, or an email that is a string. *)
Definition consistent (st : Store) : Prop :=
  NoDup (map User._id (users st)) /\
  NoDup (strings_of (map User.username (users st))) /\
  NoDup (strings_of (map User.email (users st))) /\
  NoDup (map Recipe._id (recipes st)).

(** ** A concrete instance of the libraries and a small store

    Object ids are read from 24 hexadecimal digits as bson does; the token and
    password functions are small stand-ins, enough to run the handlers. *)

Module Demo.
Definition hex_val (c : ascii) : option N :=
  let n := N_of_ascii c in
  if (48 <=? n)%N && (n <=? 57)%N then Some (n - 48)%N
  else if (97 <=? n)%N && (n <=? 102)%N then Some (n - 87)%N
  else if (65 <=? n)%N && (n <=? 70)%N then Some (n - 55)%N
  else None.

Fixpoint hex_fold (acc : N) (s : string) : option N :=
  match s with
  | EmptyString => Some acc
  | String c rest =>
      match hex_val c with
      | Some d => hex_fold (16 * acc + d)%N rest
      | None => None
      end
  end.

Definition oid_of_hex (s : string) : option ObjectId :=
  if (String.length s =? 24)%nat then hex_fold 0%N s else None.

Definition hex_char (d : N) : ascii :=
  ascii_of_N (if (d <? 10)%N then 48 + d else 87 + d)%N.

Fixpoint to_hex (digits : nat) (n : N) (acc : string) : string :=
  match digits with
  | O => acc
  | S k => to_hex k (n / 16)%N (String (hex_char (n mod 16)%N) acc)
  end.

Definition oid_to_hex (o : ObjectId) : string := to_hex 24 o "".

Definition alice_id : ObjectId := 0xa11ce%N.
Definition bob_id : ObjectId := 0xb0b%N.
Definition ghost_id : ObjectId := 0x90057%N.

Definition toy_hash (data salt : string) : string := salt ++ "$" ++ data.

(** Salts have four characters, so the digest starts at the sixth. *)
Definition toy_compare (data hash : string) : bool :=
  slice 5 hash =? data.

Definition toy_sign (payload : Jwt.Payload) (secret jwtid : string) : string :=
  match Jwt.username payload with
  | JStr u => u ++ ".jwt"
  | _ => "anonymous.jwt"
  end.

Definition toy_verify (token secret : string) : option Jwt.Payload :=
  if secret =? "s3cret" then
    if token =? "alice.jwt" then
      Some (Jwt.mk (Some (oid_to_hex alice_id)) (JStr "alice")
                   (JStr "alice@example.org"))
    else if token =? "bob.jwt" then
      Some (Jwt.mk (Some (oid_to_hex bob_id)) (JStr "bob") (JStr "bob@example.org"))
    else if token =? "ghost.jwt" then
      Some (Jwt.mk (Some (oid_to_hex ghost_id)) (JStr "ghost")
                   (JStr "ghost@example.org"))
    else None
  else None.

(** A number is a literal to equal; [{ $in: [] }] is an operator no value
    satisfies; this small server refuses every other condition. *)
Definition toy_condition (cond : jsval) : option (jsval -> bool) :=
  match cond with
  | JNum n =>
      Some (fun stored =>
              match stored with
              | JNum m => (m =? n)%Z
              | JArr items =>
                  existsb (fun v => match v with JNum m => (m =? n)%Z | _ => false end) items
              | _ => false
              end)
  | JObj [("$in", JArr [])] => Some (fun _ => false)
  | _ => None
  end.

Definition lib : Libraries :=
  {| ObjectId_new := oid_of_hex;
     ObjectId_toString := oid_to_hex;
     bcrypt_hash := toy_hash;
     bcrypt_compare := toy_compare;
     jwt_verify := toy_verify;
     jwt_sign := toy_sign;
     mongo_condition := toy_condition |}.

Definition env : Env := {| JWT_SECRET := Some "s3cret" |}.

Definition rnd : Entropy :=
  {| genSalt := "salt"; randomUUID := "7d1c"; insertedId := 0x77%N |}.

Definition alice : User.t :=
  User.mk alice_id (JStr "alice") (JStr "alice@example.org") (toy_hash "wonderland" "salt").
Definition bob : User.t :=
  User.mk bob_id (JStr "bob") (JStr "bob@example.org") (toy_hash "builder" "salt").

Definition pancakes_id : ObjectId := 0x51%N.
Definition stew_id : ObjectId := 0x52%N.

Definition pancakes : Recipe.t :=
  Recipe.mk pancakes_id (JStr "Pancakes") (JStr "Thin ones")
            (JArr [JStr "flour"; JStr "milk"; JStr "eggs"]) (JStr "Whisk and fry.")
            alice_id (JStr "alice").
Definition stew : Recipe.t :=
  Recipe.mk stew_id (JStr "Stew") (JStr "Slow") (JArr [JStr "beans"]) (JStr "Simmer.")
            ghost_id (JStr "ghost").

(** [stew] belongs to an account that is gone. *)
Definition store : Store := {| users := [alice; bob]; recipes := [pancakes; stew] |}.

Definition as_user (token : string) (id : string) (b : jsval) : Request :=
  {| authorization := Some ("Bearer " ++ token); params_id := id; body := b |}.

Definition anonymous (id : string) : Request :=
  {| authorization := None; params_id := id; body := JUndefined |}.
End Demo.

(** * Properties *)

(** ** Strings and collections *)

Lemma startsWith_append (p t : string) : startsWith (p ++ t) p = true.
Proof.
  unfold startsWith. induction p as [|a p IH]; simpl.
  - now destruct t.
  - destruct (ascii_dec a a) as [_|Hne]; [exact IH | now elim Hne].
Qed.

Lemma slice_append (p t : string) : slice (String.length p) (p ++ t) = t.
Proof. induction p as [|a p IH]; simpl; [reflexivity | exact IH]. Qed.

Lemma startsWith_split (p h : string) :
  startsWith h p = true -> h = p ++ slice (String.length p) h.
Proof.
  unfold startsWith. revert h. induction p as [|a p IH]; intros h Hp.
  - reflexivity.
  - destruct h as [|b h]; simpl in Hp; [discriminate|].
    destruct (ascii_dec a b) as [->|]; [|discriminate].
    simpl. now rewrite <- (IH h Hp).
Qed.

Section Collection_facts.
Context {D : Type}.
Variable q : D -> bool.

Lemma findOne_no_match (c : list D) :
  (forall d, In d c -> q d = false) -> findOne q c = None.
Proof.
  unfold findOne. induction c as [|d c IH]; intros Hq; simpl.
  - reflexivity.
  - rewrite (Hq d (or_introl eq_refl)). apply IH. intros d' Hd'. apply Hq. now right.
Qed.

Lemma findOne_exists (c : list D) :
  (exists d, In d c /\ q d = true) -> exists d, findOne q c = Some d.
Proof.
  intros (d & Hin & Hq). unfold findOne.
  destruct (find q c) as [d'|] eqn:E; [now exists d'|].
  now rewrite (find_none _ _ E d Hin) in Hq.
Qed.

Lemma findOne_inserted (c : list D) (d : D) :
  (forall d', In d' c -> q d' = false) -> q d = true ->
  findOne q (c ++ [d]) = Some d.
Proof.
  intros Hc Hd. unfold findOne. induction c as [|d' c IH]; simpl.
  - now rewrite Hd.
  - rewrite (Hc d' (or_introl eq_refl)). apply IH.
    intros x Hx. apply Hc. now right.
Qed.

Lemma updateOne_no_match (f : D -> D) (c : list D) :
  (forall d, In d c -> q d = false) -> updateOne q f c = (0, c).
Proof.
  induction c as [|d c IH]; intros Hq; simpl.
  - reflexivity.
  - rewrite (Hq d (or_introl eq_refl)), IH; [reflexivity|].
    intros d' Hd'. apply Hq. now right.
Qed.

(** When the first document an id query finds also satisfies the narrower
    filter [q], [updateOne q f] rewrites that document, and the id query
    finds its image afterwards. *)
Lemma updateOne_then_findOne (idq : D -> bool) (f : D -> D) (c : list D) (r : D) :
  (forall d, q d = true -> idq d = true) ->
  (forall d, idq (f d) = idq d) ->
  findOne idq c = Some r -> q r = true ->
  fst (updateOne q f c) = 1 /\ findOne idq (snd (updateOne q f c)) = Some (f r).
Proof.
  intros Hq Hf. unfold findOne. induction c as [|d c IH]; simpl; [discriminate|].
  intros Hfind Hr. destruct (q d) eqn:Eq.
  - rewrite (Hq d Eq) in Hfind. injection Hfind as ->. simpl.
    now rewrite Hf, (Hq r Eq).
  - destruct (idq d) eqn:Eid.
    + injection Hfind as ->. congruence.
    + destruct (IH Hfind Hr) as [Hn Hfound].
      destruct (updateOne q f c) as [n c']. simpl in *. now rewrite Eid.
Qed.

Lemma deleteOne_no_match (c : list D) :
  (forall d, In d c -> q d = false) -> deleteOne q c = (0, c).
Proof.
  induction c as [|d c IH]; intros Hq; simpl.
  - reflexivity.
  - rewrite (Hq d (or_introl eq_refl)), IH; [reflexivity|].
    intros d' Hd'. apply Hq. now right.
Qed.

Lemma insertOne_fresh (id_of : D -> ObjectId) (d : D) (c : list D) :
  (forall d', In d' c -> id_of d' <> id_of d) ->
  insertOne id_of d c = Some (c ++ [d])%list.
Proof.
  intros Hfresh. unfold insertOne.
  destruct (existsb _ c) eqn:E; [|reflexivity].
  apply existsb_exists in E. destruct E as (d' & Hin & Heq).
  apply N.eqb_eq in Heq. now elim (Hfresh d' Hin).
Qed.
End Collection_facts.

Section Route_facts.
Context {lib : Libraries}.

Lemma bearer_header (t : string) : bearer (Some ("Bearer " ++ t)) = Some t.
Proof.
  unfold bearer. now rewrite startsWith_append.
Qed.

Lemma bearer_inv (h : option string) (t : string) :
  bearer h = Some t -> h = Some ("Bearer " ++ t).
Proof.
  unfold bearer. destruct h as [h|]; [|discriminate].
  destruct (startsWith h "Bearer ") eqn:E; [|discriminate].
  intros [= <-]. f_equal. exact (startsWith_split "Bearer " h E).
Qed.

(** What [subject] found on its way to an owner. *)
Lemma subject_inv (env : Env) (req : Request) (owner : ObjectId) :
  subject env req = Some owner ->
  exists token secret payload sub,
    bearer (authorization req) = Some token /\ token <> "" /\
    JWT_SECRET env = Some secret /\ secret <> "" /\
    jwt_verify token secret = Some payload /\
    Jwt.sub payload = Some sub /\ sub <> "" /\
    ObjectId_new sub = Some owner.
Proof.
  unfold subject.
  destruct (bearer (authorization req)) as [[|a token]|]; try discriminate.
  destruct (JWT_SECRET env) as [[|b secret]|]; try discriminate.
  destruct (jwt_verify _ _) as [payload|] eqn:Hv; try discriminate.
  destruct (Jwt.sub payload) as [[|c sub]|] eqn:Hsub; try discriminate.
  intros Hown. exists (String a token), (String b secret), payload, (String c sub).
  repeat split; try assumption; discriminate.
Qed.

Lemma protected_pass (env : Env) (req : Request) (h : M Response)
    (token secret : string) (payload : Jwt.Payload) :
  bearer (authorization req) = Some token -> token <> "" ->
  JWT_SECRET env = Some secret -> secret <> "" ->
  jwt_verify token secret = Some payload ->
  protected env req h = h.
Proof.
  intros Hb Ht Hs Hs' Hv. unfold protected, requireAuth. rewrite Hb.
  destruct token; [congruence|]. rewrite Hs.
  destruct secret; [congruence|]. now rewrite Hv.
Qed.

Lemma with_token_pass (env : Env) (req : Request) (k : string -> string -> M Response)
    (token secret : string) :
  bearer (authorization req) = Some token -> token <> "" ->
  JWT_SECRET env = Some secret -> secret <> "" ->
  with_token env req k = k token secret.
Proof.
  intros Hb Ht Hs Hs'. unfold with_token. rewrite Hb.
  destruct token; [congruence|]. rewrite Hs.
  destruct secret; [congruence|]. reflexivity.
Qed.
(** *** The account filter *)

Lemma matches_string_refl (q : string) : matches_string q (JStr q) = true.
Proof. apply String.eqb_refl. Qed.

Lemma matches_string_strings (q s : string) :
  matches_string q (JStr s) = true <-> s = q.
Proof. apply String.eqb_eq. Qed.

Lemma or_username_email_strings (u e : string) :
  or_username_email (JStr u) (JStr e) =
    Some (fun a => matches_string u (User.username a) || matches_string e (User.email a)).
Proof. reflexivity. Qed.

(** What the filter asks of the username it asks alone of the username. *)
Lemma or_username_email_inv (username email : jsval) (filter : User.t -> bool) :
  or_username_email username email = Some filter ->
  exists p q,
    condition username = Some p /\ condition email = Some q /\
    forall a, filter a = p (User.username a) || q (User.email a).
Proof.
  unfold or_username_email.
  destruct (condition username) as [p|]; [|discriminate].
  destruct (condition email) as [q|]; [|discriminate].
  intros [= <-]. now exists p, q.
Qed.

(** *** The account handlers behind their guards *)

Lemma register_given (rnd : Entropy) (b : Credentials) :
  truthy (username b) = true -> truthy (email b) = true -> truthy (password b) = true ->
  register_handler rnd b = register_attempt rnd (username b) (email b) (password b).
Proof. intros Hu He Hp. unfold register_handler. now rewrite Hu, He, Hp. Qed.

Lemma sent_truthy (v : jsval) (s : string) : sent v s -> truthy v = true.
Proof. intros [-> Hs]. destruct s; [congruence | reflexivity]. Qed.

Lemma register_success_inv (rnd : Entropy) (b : Credentials) (st st' : Store)
    (resp : Response) :
  register_handler rnd b st = (Returned resp, st') ->
  status resp = 201 ->
  exists created,
    In created (users st') /\ json resp = JObj (sanitizeUser (User.toObject created)).
Proof.
  unfold register_handler.
  destruct (negb _ || negb _ || negb _); [intros [= <- <-]; discriminate|].
  unfold register_attempt, try_catch, bind, attempt, users_findOne, users_insertOne.
  destruct (or_username_email _ _) as [filter|]; cbn;
    [|intros [= <- <-]; discriminate].
  destruct (findOne _ (users st)); [intros [= <- <-]; discriminate|].
  destruct (hashPassword _ _) as [hashed|]; cbn; [|intros [= <- <-]; discriminate].
  destruct (insertOne _ _ _) as [c'|]; [|intros [= <- <-]; discriminate].
  unfold findOne. cbn. destruct (find _ c') as [created|] eqn:Hfind;
    [|intros [= <- <-]; discriminate].
  intros [= <- <-] _. exists created. split; [|reflexivity].
  cbn. now apply find_some in Hfind.
Qed.

Lemma login_given (env : Env) (rnd : Entropy) (b : Credentials) (secret : string) :
  truthy (identifier_of b) = true -> truthy (password b) = true ->
  given (JWT_SECRET env) secret ->
  login_handler env rnd b = login_attempt rnd (identifier_of b) (password b) secret.
Proof.
  intros Hi Hp [Hs Hs']. unfold login_handler. cbv zeta. rewrite Hi, Hp, Hs.
  destruct secret; [congruence|]. reflexivity.
Qed.

(** A 200 from the login handler comes from one place only. *)
Lemma login_success_inv (env : Env) (rnd : Entropy) (b : Credentials)
    (st st' : Store) (resp : Response) :
  login_handler env rnd b st = (Returned resp, st') ->
  status resp = 200 ->
  exists secret filter account,
    truthy (identifier_of b) = true /\ truthy (password b) = true /\
    given (JWT_SECRET env) secret /\
    or_username_email (identifier_of b) (identifier_of b) = Some filter /\
    findOne filter (users st) = Some account /\
    comparePassword (password b) (User.password account) = Some true /\
    json resp =
      JObj [ ("user", JObj (sanitizeUser (User.toObject account)));
             ("token",
              JStr (jwt_sign
                      (Jwt.mk (Some (ObjectId_toString (User._id account)))
                              (User.username account) (User.email account))
                      secret (randomUUID rnd))) ] /\
    st' = st.
Proof.
  unfold login_handler. cbv zeta.
  destruct (truthy (identifier_of b)) eqn:Hi; [|intros [= <- <-]; discriminate].
  destruct (truthy (password b)) eqn:Hp; [|intros [= <- <-]; discriminate].
  cbn [negb orb].
  destruct (JWT_SECRET env) as [[|d secret]|] eqn:Hs;
    try (intros [= <- <-]; discriminate).
  unfold login_attempt, try_catch, bind, attempt, users_findOne.
  destruct (or_username_email _ _) as [filter|] eqn:Hfilter; cbn;
    [|intros [= <- <-]; discriminate].
  destruct (findOne _ (users st)) as [account|] eqn:Hfind;
    [|intros [= <- <-]; discriminate].
  destruct (comparePassword _ _) as [[|]|] eqn:Hcmp; cbn;
    try (intros [= <- <-]; discriminate).
  intros [= <- <-] _.
  exists (String d secret), filter, account.
  unfold given. repeat split; try assumption; try reflexivity; discriminate.
Qed.

(** *** [sanitizeUser] *)

Lemma sanitizeUser_get_prop (user : list (string * jsval)) (k : string) :
  get_prop k (sanitizeUser user) = if k =? "password" then JUndefined else get_prop k user.
Proof.
  induction user as [|[k' v] user IH]; simpl.
  - now destruct (k =? "password").
  - destruct (k' =? "password") eqn:Ek'; simpl.
    + rewrite IH. destruct (k =? "password") eqn:Ek; [reflexivity|].
      apply String.eqb_eq in Ek'. subst k'.
      now rewrite String.eqb_sym, Ek.
    + rewrite IH. destruct (k' =? k) eqn:E; [|reflexivity].
      apply String.eqb_eq in E. subst k'. now rewrite Ek'.
Qed.

Lemma sanitizeUser_has_prop (user : list (string * jsval)) (k : string) :
  has_prop k (sanitizeUser user) = negb (k =? "password") && has_prop k user.
Proof.
  induction user as [|[k' v] user IH]; simpl.
  - now rewrite andb_false_r.
  - destruct (k' =? "password") eqn:Ek'; simpl; rewrite IH.
    + apply String.eqb_eq in Ek'. subst k'. rewrite (String.eqb_sym "password" k).
      now destruct (k =? "password").
    + destruct (k' =? k) eqn:E; simpl; [|reflexivity].
      apply String.eqb_eq in E. subst k'. now rewrite Ek'.
Qed.

(** *** The update object *)

Lemma set_field_keeps (r : Recipe.t) (kv : string * jsval) :
  Recipe._id (set_field r kv) = Recipe._id r /\
  Recipe.ownerId (set_field r kv) = Recipe.ownerId r.
Proof.
  destruct kv as [k v]. unfold set_field.
  repeat (destruct (_ =? _); [now split|]). now split.
Qed.

Lemma apply_set_keeps (update : list (string * jsval)) (r : Recipe.t) :
  Recipe._id (apply_set update r) = Recipe._id r /\
  Recipe.ownerId (apply_set update r) = Recipe.ownerId r.
Proof.
  unfold apply_set. revert r. induction update as [|kv update IH]; intros r; simpl.
  - now split.
  - destruct (IH (set_field r kv)) as [-> ->]. apply set_field_keeps.
Qed.

Lemma build_update_present (b : jsval) :
  defined (field b "ingredients") = false \/ Array_isArray (field b "ingredients") = true ->
  present_fields b <> [] ->
  build_update b = inr (present_fields b).
Proof.
  intros Hing Hsome. unfold build_update.
  replace (defined (field b "ingredients") && negb (Array_isArray (field b "ingredients")))
    with false by (destruct Hing as [-> | ->]; [reflexivity | now rewrite andb_false_r]).
  revert Hsome. unfold present_fields. cbn.
  destruct (defined (field b "title")), (defined (field b "description")),
    (defined (field b "ingredients")), (defined (field b "instructions")); cbn;
    intros Hsome; try reflexivity. now elim Hsome.
Qed.

Lemma build_update_nothing (b : jsval) :
  present_fields b = [] ->
  build_update b = inl (respond 400 (message "No valid fields to update")).
Proof.
  unfold present_fields, build_update. cbn.
  destruct (defined (field b "title")), (defined (field b "description")),
    (defined (field b "ingredients")), (defined (field b "instructions")); cbn;
    try discriminate. reflexivity.
Qed.

Lemma build_update_early (b : jsval) (early : Response) :
  build_update b = inl early ->
  early = respond 400 (message "Invalid ingredients") \/
  early = respond 400 (message "No valid fields to update").
Proof.
  unfold build_update.
  destruct (defined (field b "ingredients") && _); [intros [= <-]; now left|].
  destruct (List.length _ =? 0)%nat; [intros [= <-]; now right | discriminate].
Qed.

Lemma build_update_inr (b : jsval) (update : list (string * jsval)) :
  build_update b = inr update ->
  update = present_fields b /\ update <> [] /\
  (defined (field b "ingredients") = false \/ Array_isArray (field b "ingredients") = true).
Proof.
  intros Hupd.
  assert (Hing : defined (field b "ingredients") = false \/
                 Array_isArray (field b "ingredients") = true).
  { unfold build_update in Hupd.
    destruct (defined (field b "ingredients")); [|now left].
    destruct (Array_isArray (field b "ingredients")); [now right | discriminate]. }
  destruct (present_fields b) as [|kv rest] eqn:Hpresent.
  - rewrite (build_update_nothing b Hpresent) in Hupd. discriminate.
  - rewrite (build_update_present b Hing) in Hupd by (rewrite Hpresent; discriminate).
    injection Hupd as <-. rewrite Hpresent. repeat split; [discriminate | exact Hing].
Qed.

(** [$set] with the fields present overwrites those and keeps the rest. *)
Lemma apply_set_present (b : jsval) (r : Recipe.t) :
  let pick k old := if defined (field b k) then field b k else old in
  apply_set (present_fields b) r =
    Recipe.mk (Recipe._id r)
              (pick "title" (Recipe.title r)) (pick "description" (Recipe.description r))
              (pick "ingredients" (Recipe.ingredients r))
              (pick "instructions" (Recipe.instructions r))
              (Recipe.ownerId r) (Recipe.ownerUsername r).
Proof.
  unfold apply_set, present_fields. cbn.
  destruct (defined (field b "title")), (defined (field b "description")),
    (defined (field b "ingredients")), (defined (field b "instructions")); cbn;
    now destruct r.
Qed.

Lemma owned_by_foreign (rid owner : ObjectId) (r : Recipe.t) :
  (Recipe._id r = rid -> Recipe.ownerId r <> owner) -> owned_by rid owner r = false.
Proof.
  intros Hforeign. unfold owned_by. apply andb_false_iff.
  destruct (N.eqb_spec (Recipe._id r) rid) as [E|]; [right | now left].
  apply N.eqb_neq. now apply Hforeign.
Qed.
End Route_facts.

(** Opens a hypothesis [subject env req = Some owner] and steps a protected
    route to the body of its handler. *)
Ltac enter_route H :=
  let token := fresh "token" in
  let secret := fresh "secret" in
  let payload := fresh "payload" in
  let sub := fresh "sub" in
  let Hb := fresh "Hbearer" in
  let Ht := fresh "Htoken" in
  let Hs := fresh "Hsecret" in
  let Hs' := fresh "Hsecret'" in
  let Hv := fresh "Hverify" in
  let Hsub := fresh "Hsub" in
  let Hsub' := fresh "Hsub'" in
  let Hown := fresh "Howner" in
  destruct (subject_inv _ _ _ H)
    as (token & secret & payload & sub & Hb & Ht & Hs & Hs' & Hv & Hsub & Hsub' & Hown);
  rewrite ?(protected_pass _ _ _ token secret payload Hb Ht Hs Hs' Hv);
  rewrite ?(with_token_pass _ _ _ token secret Hb Ht Hs Hs');
  destruct sub; [congruence|].

(** ** The routes against their specification *)

Section Claims.
Context {lib : Libraries}.

(** C1 (as amended). An update or delete request with a valid token and a
    well-formed id whose store holds no recipe with both that id and
    [ownerId] equal to the token's subject fails with 404 "Recipe not found"
    and changes nothing; for the update this is for a body that passed the
    field checks. The hypothesis on the store covers an absent id and a recipe
    of another account alike, so the two get the same response. *)
Theorem owner_scoped_not_found (env : Env) (req : Request) (owner rid : ObjectId) :
  subject env req = Some owner ->
  ObjectId_new (params_id req) = Some rid ->
  forall st : Store,
    (forall r, In r (recipes st) -> Recipe._id r = rid -> Recipe.ownerId r <> owner) ->
    (forall update, build_update (body req) = inr update ->
       patch_recipe env req st = (Returned (respond 404 (message "Recipe not found")), st)) /\
    delete_recipe env req st = (Returned (respond 404 (message "Recipe not found")), st).
Proof.
  intros Hsubject Hid st Hforeign.
  assert (Hq : forall r, In r (recipes st) -> owned_by rid owner r = false).
  { intros r Hr. apply owned_by_foreign. now apply Hforeign. }
  unfold delete_recipe, patch_recipe, delete_recipe_handler, patch_recipe_handler.
  enter_route Hsubject.
  unfold try_catch, bind, attempt, ObjectId_isValid, recipes_updateOne, recipes_deleteOne.
  rewrite Hverify. cbn. rewrite Hsub, Howner. cbn. rewrite Hid. cbn.
  split.
  - intros update ->. rewrite updateOne_no_match by exact Hq. cbn. now destruct st.
  - rewrite deleteOne_no_match by exact Hq. cbn. now destruct st.
Qed.

(** C2 (as amended). A single-recipe read needs no token. With a well-formed
    id that no stored recipe has it fails with 404 "Recipe not found"; with a
    malformed id the constructor throws and the handler answers
    400 "Invalid recipe id". The store is unchanged in both cases. *)
Theorem get_recipe_outcomes (req : Request) (st : Store) :
  (forall rid, ObjectId_new (params_id req) = Some rid ->
     (forall r, In r (recipes st) -> Recipe._id r <> rid) ->
     get_recipe req st = (Returned (respond 404 (message "Recipe not found")), st)) /\
  (ObjectId_new (params_id req) = None ->
     get_recipe req st = (Returned (respond 400 (message "Invalid recipe id")), st)).
Proof.
  unfold get_recipe, try_catch, bind, attempt, recipes_findOne. split.
  - intros rid -> Habsent. cbn.
    rewrite findOne_no_match; [reflexivity|].
    intros r Hr. apply N.eqb_neq. now apply Habsent.
  - now intros ->.
Qed.

(** C3 (as amended). With a signing secret configured, take two login requests
    whose identifier and password are truthy and whose identifier the store
    accepts in a filter, as it accepts every string. The first finds an
    account, and its password is a string that bcrypt compares with the stored
    hash and rejects; the second matches no account. Both get
    401 "Invalid credentials" and leave the store as it was. And any login
    answered with 200 found an account by the identifier, had bcrypt verify
    the password against the stored hash, and carries the token signed for
    that account. *)
Theorem login_invalid_credentials (env : Env) (rnd : Entropy) (st : Store) :
  (forall (secret : string) (wrong unknown : Credentials) (p1 : string)
          (found nobody : User.t -> bool) (account : User.t),
     given (JWT_SECRET env) secret ->
     truthy (identifier_of wrong) = true -> sent (password wrong) p1 ->
     truthy (identifier_of unknown) = true -> truthy (password unknown) = true ->
     or_username_email (identifier_of wrong) (identifier_of wrong) = Some found ->
     findOne found (users st) = Some account ->
     bcrypt_compare p1 (User.password account) = false ->
     or_username_email (identifier_of unknown) (identifier_of unknown) = Some nobody ->
     (forall u, In u (users st) -> nobody u = false) ->
     login_handler env rnd wrong st =
       (Returned (respond 401 (message "Invalid credentials")), st) /\
     login_handler env rnd unknown st =
       (Returned (respond 401 (message "Invalid credentials")), st)) /\
  (forall (b : Credentials) (resp : Response) (st' : Store),
     login_handler env rnd b st = (Returned resp, st') -> status resp = 200 ->
     exists secret filter account,
       truthy (identifier_of b) = true /\ truthy (password b) = true /\
       given (JWT_SECRET env) secret /\
       or_username_email (identifier_of b) (identifier_of b) = Some filter /\
       findOne filter (users st) = Some account /\
       comparePassword (password b) (User.password account) = Some true /\
       json resp =
         JObj [ ("user", JObj (sanitizeUser (User.toObject account)));
                ("token",
                 JStr (jwt_sign
                         (Jwt.mk (Some (ObjectId_toString (User._id account)))
                                 (User.username account) (User.email account))
                         secret (randomUUID rnd))) ]).
Proof.
  split.
  - intros secret wrong unknown p1 found nobody account
           Hs Hi1 Hp1 Hi2 Hp2 Hfilter1 Hfound Hwrong Hfilter2 Hunknown.
    rewrite (login_given env rnd wrong secret Hi1 (sent_truthy _ _ Hp1) Hs).
    rewrite (login_given env rnd unknown secret Hi2 Hp2 Hs).
    unfold login_attempt, try_catch, bind, attempt, users_findOne.
    rewrite Hfilter1, Hfilter2. cbn. split.
    + destruct Hp1 as [-> _]. rewrite Hfound. cbn. now rewrite Hwrong.
    + now rewrite (findOne_no_match nobody (users st) Hunknown).
  - intros b resp st' Hrun H200.
    destruct (login_success_inv env rnd b st st' resp Hrun H200)
      as (secret & filter & account & Hi & Hp & Hs & Hfilter & Hfind & Hcmp & Hjson & _).
    now exists secret, filter, account.
Qed.

(** C4 (as amended). For a registration request whose username, email and
    password are non-empty strings: if a stored account has that username or
    that email (as its stored string, or among the elements of a stored
    array) the handler answers 409 "User already exists" and inserts nothing;
    otherwise, the inserted id being new to the collection, the password is
    hashed, the account is appended, and the answer is 201 with the account's
    [_id], [username] and [email] and no password. *)
Theorem register_outcomes (rnd : Entropy) (b : Credentials) (st : Store) (u e p : string) :
  sent (username b) u -> sent (email b) e -> sent (password b) p ->
  ((exists a, In a (users st) /\
              (matches_string u (User.username a) = true \/
               matches_string e (User.email a) = true)) ->
     register_handler rnd b st =
       (Returned (respond 409 (message "User already exists")), st)) /\
  ((forall a, In a (users st) ->
              matches_string u (User.username a) = false /\
              matches_string e (User.email a) = false) ->
   (forall a, In a (users st) -> User._id a <> insertedId rnd) ->
     register_handler rnd b st =
       (Returned (respond 201 (JObj [ ("_id", JOid (insertedId rnd));
                                      ("username", JStr u); ("email", JStr e) ])),
        {| users := users st ++
                    [User.mk (insertedId rnd) (JStr u) (JStr e)
                             (bcrypt_hash p (genSalt rnd))];
           recipes := recipes st |})).
Proof.
  intros Hu He Hp.
  rewrite (register_given rnd b (sent_truthy _ _ Hu) (sent_truthy _ _ He)
             (sent_truthy _ _ Hp)).
  destruct Hu as [-> _], He as [-> _], Hp as [-> _].
  unfold register_attempt, try_catch, bind, attempt, users_findOne, users_insertOne.
  rewrite or_username_email_strings. cbn [ret]. split.
  - intros (a & Hin & Hdup).
    match goal with |- context [findOne ?q _] =>
      destruct (findOne_exists q (users st)) as (a' & ->) end.
    { exists a. split; [exact Hin|]. now apply orb_true_iff. }
    reflexivity.
  - intros Hnew Hfresh. rewrite findOne_no_match.
    2:{ intros a Ha. apply orb_false_iff. now apply Hnew. }
    cbn. rewrite (insertOne_fresh User._id) by exact Hfresh.
    cbn. rewrite findOne_inserted.
    + reflexivity.
    + intros a Ha. apply N.eqb_neq. now apply Hfresh.
    + apply N.eqb_refl.
Qed.

(** C5. [sanitizeUser] keeps every property of the object it is given except
    [password], with the same value, and [password] is gone; on a stored
    account that leaves [_id], [username] and [email]. The body of a 201 from
    register is [sanitizeUser] of an account now in the store, and the [user]
    of a 200 from login is [sanitizeUser] of the account that was found. *)
Theorem sanitized_accounts :
  (forall user k,
     get_prop k (sanitizeUser user) =
       (if k =? "password" then JUndefined else get_prop k user) /\
     has_prop k (sanitizeUser user) = negb (k =? "password") && has_prop k user) /\
  (forall u : User.t,
     sanitizeUser (User.toObject u) =
       [ ("_id", JOid (User._id u)); ("username", User.username u);
         ("email", User.email u) ]) /\
  (forall rnd b st resp st',
     register_handler rnd b st = (Returned resp, st') -> status resp = 201 ->
     exists created,
       In created (users st') /\
       json resp = JObj (sanitizeUser (User.toObject created))) /\
  (forall env rnd b st resp st',
     login_handler env rnd b st = (Returned resp, st') -> status resp = 200 ->
     exists account,
       In account (users st) /\
       field (json resp) "user" = JObj (sanitizeUser (User.toObject account))).
Proof.
  split; [|split; [|split]].
  - intros user k. split; [apply sanitizeUser_get_prop | apply sanitizeUser_has_prop].
  - reflexivity.
  - intros rnd b st resp st'. apply register_success_inv.
  - intros env rnd b st resp st' Hrun H200.
    destruct (login_success_inv env rnd b st st' resp Hrun H200)
      as (secret & filter & account & _ & _ & _ & _ & Hfind & _ & Hjson & _).
    exists account. split; [now apply find_some in Hfind|]. now rewrite Hjson.
Qed.

(** C6. The gate on every protected route. Without a header of the form
    [Authorization: Bearer <token>] with a non-empty token it answers
    401 "Missing token". With such a header: 500 "JWT secret not configured"
    when the secret is unset or empty; with a secret,
    401 "Invalid token" when verification throws, and [next()] when it
    succeeds. A protected route answers with the gate's refusal and leaves
    the store alone, or else runs its handler. *)
Theorem requireAuth_outcomes (env : Env) (req : Request) :
  ((forall t, t <> "" -> authorization req <> Some ("Bearer " ++ t)) ->
     requireAuth env req = inl (respond 401 (message "Missing token"))) /\
  (forall t, t <> "" -> authorization req = Some ("Bearer " ++ t) ->
     ((JWT_SECRET env = None \/ JWT_SECRET env = Some "") ->
        requireAuth env req = inl (respond 500 (message "JWT secret not configured"))) /\
     (forall secret, secret <> "" -> JWT_SECRET env = Some secret ->
        (jwt_verify t secret = None ->
           requireAuth env req = inl (respond 401 (message "Invalid token"))) /\
        (forall payload, jwt_verify t secret = Some payload ->
           requireAuth env req = inr tt))) /\
  (forall (handler : M Response) (st : Store),
     match requireAuth env req with
     | inl refusal => protected env req handler st = (Returned refusal, st)
     | inr _ => protected env req handler st = handler st
     end).
Proof.
  split; [|split].
  - intros Hnone. unfold requireAuth.
    destruct (bearer (authorization req)) as [[|a t]|] eqn:Hb; try reflexivity.
    apply bearer_inv in Hb. elim (Hnone (String a t)); [discriminate | exact Hb].
  - intros t Ht Hh. unfold requireAuth. rewrite Hh, bearer_header.
    destruct t as [|a t]; [congruence|]. split.
    + intros [-> | ->]; reflexivity.
    + intros secret Hs ->. destruct secret as [|b secret]; [congruence|]. split.
      * now intros ->.
      * now intros payload ->.
  - intros handler st. unfold protected. now destruct (requireAuth env req).
Qed.

(** C7. For an authenticated PATCH the update object is exactly the
    recognised fields the body carries, whichever they are: a body with at
    least one of them (and [ingredients], if sent, an array) is accepted with
    that update, an accepted update is never anything else, and on a recipe of
    the caller the fields sent are overwritten, the others kept, and the
    result returned with 200. When none of the four is present the answer is
    400 "No valid fields to update"; when the id is malformed the answer is a
    400. In these two cases the store is unchanged. *)
Theorem patch_recipe_validation (env : Env) (req : Request) (st : Store) (owner : ObjectId) :
  subject env req = Some owner ->
  let b := body req in
  let pick k old := if defined (field b k) then field b k else old in
  ((defined (field b "ingredients") = false \/ Array_isArray (field b "ingredients") = true) ->
   present_fields b <> [] ->
   build_update b = inr (present_fields b)) /\
  (forall update, build_update b = inr update ->
     update = present_fields b /\
     forall rid r,
       ObjectId_new (params_id req) = Some rid ->
       findOne (fun r => (Recipe._id r =? rid)%N) (recipes st) = Some r ->
       Recipe.ownerId r = owner ->
       let written :=
         Recipe.mk (Recipe._id r)
                   (pick "title" (Recipe.title r)) (pick "description" (Recipe.description r))
                   (pick "ingredients" (Recipe.ingredients r))
                   (pick "instructions" (Recipe.instructions r))
                   (Recipe.ownerId r) (Recipe.ownerUsername r) in
       exists st',
         patch_recipe env req st = (Returned (respond 200 (Recipe.toObject written)), st') /\
         users st' = users st /\
         findOne (fun r => (Recipe._id r =? rid)%N) (recipes st') = Some written) /\
  (present_fields b = [] ->
   patch_recipe env req st =
     (Returned (respond 400 (message "No valid fields to update")), st)) /\
  (ObjectId_new (params_id req) = None ->
   exists m, patch_recipe env req st = (Returned (respond 400 (message m)), st)).
Proof.
  intros Hsubject b pick. subst b.
  unfold patch_recipe, patch_recipe_handler.
  enter_route Hsubject.
  split; [|split; [|split]].
  - apply build_update_present.
  - intros update Hupd.
    destruct (build_update_inr _ _ Hupd) as (-> & _ & _). split; [reflexivity|].
    intros rid r Hid Hfind Hown.
    pose proof (apply_set_present (body req) r) as Hwritten. cbv zeta in Hwritten.
    unfold pick. rewrite <- Hwritten. clear Hwritten. rewrite Hupd.
    unfold try_catch, bind, attempt, ObjectId_isValid, recipes_updateOne, recipes_findOne.
    rewrite Hverify. cbn. rewrite Hsub, Howner. cbn. rewrite Hid. cbn.
    destruct (updateOne_then_findOne (owned_by rid owner)
                (fun r => (Recipe._id r =? rid)%N)
                (apply_set (present_fields (body req))) (recipes st) r) as [Hn Hfound].
    + unfold owned_by. intros d Hd. now apply andb_true_iff in Hd.
    + intros d. now destruct (apply_set_keeps (present_fields (body req)) d) as [-> _].
    + exact Hfind.
    + apply find_some in Hfind. unfold owned_by.
      rewrite Hown, N.eqb_refl, andb_true_r. apply Hfind.
    + destruct (updateOne _ _ (recipes st)) as [n c']. simpl in Hn, Hfound. subst n.
      unfold findOne in *. cbn. rewrite Hfound.
      eexists. split; [reflexivity|]. split; [reflexivity|]. exact Hfound.
  - intros Hnone. now rewrite (build_update_nothing _ Hnone).
  - intros Hid. destruct (build_update (body req)) as [early|update] eqn:Hupd.
    + destruct (build_update_early _ _ Hupd) as [-> | ->]; eexists; reflexivity.
    + unfold try_catch, bind, attempt, ObjectId_isValid.
      rewrite Hverify. cbn. rewrite Hsub, Howner. cbn. rewrite Hid. cbn.
      eexists; reflexivity.
Qed.

(** C8. A delete-account request with a valid token whose subject is the id
    of no stored account is answered 404 "User not found", and yet the store
    it leaves behind has lost every recipe owned by that subject (and only
    those); the accounts are as they were. *)
Theorem delete_account_without_account (env : Env) (req : Request) (st : Store)
    (uid : ObjectId) :
  subject env req = Some uid ->
  (forall u, In u (users st) -> User._id u <> uid) ->
  exists st',
    delete_account env req st = (Returned (respond 404 (message "User not found")), st') /\
    users st' = users st /\
    (forall r, In r (recipes st') <-> In r (recipes st) /\ Recipe.ownerId r <> uid).
Proof.
  intros Hsubject Hnone.
  unfold delete_account, delete_account_handler.
  enter_route Hsubject.
  unfold try_catch, bind, attempt, recipes_deleteMany, users_deleteOne.
  rewrite Hverify. cbn. rewrite Hsub, Howner. cbn.
  rewrite deleteOne_no_match.
  2:{ intros u Hu. apply N.eqb_neq. now apply Hnone. }
  cbn. eexists. split; [reflexivity|]. split; [reflexivity|]. cbn.
  intros r. unfold deleteMany. rewrite filter_In, negb_true_iff, N.eqb_neq. reflexivity.
Qed.

(** C9. An authenticated delete of a recipe whose [:id] is malformed is
    answered 500 "Recipe deletion failed" (the constructor throws inside the
    [try]) and deletes nothing, where the update route answers the same id
    with a 400, which is "Invalid recipe id" once the body has passed the
    field checks. *)
Theorem delete_recipe_malformed_id (env : Env) (req : Request) (st : Store)
    (owner : ObjectId) :
  subject env req = Some owner ->
  ObjectId_new (params_id req) = None ->
  delete_recipe env req st =
    (Returned (respond 500 (message "Recipe deletion failed")), st) /\
  (exists m, patch_recipe env req st = (Returned (respond 400 (message m)), st)) /\
  (forall update, build_update (body req) = inr update ->
     patch_recipe env req st = (Returned (respond 400 (message "Invalid recipe id")), st)).
Proof.
  intros Hsubject Hid.
  unfold delete_recipe, patch_recipe, delete_recipe_handler, patch_recipe_handler.
  enter_route Hsubject.
  unfold try_catch, bind, attempt, ObjectId_isValid.
  rewrite Hverify. cbn. rewrite Hsub, Howner. cbn. rewrite Hid. cbn.
  split; [reflexivity|]. split.
  - destruct (build_update (body req)) as [early|update] eqn:Hupd.
    + destruct (build_update_early _ _ Hupd) as [-> | ->]; eexists; reflexivity.
    + eexists; reflexivity.
  - now intros update ->.
Qed.

(** C10. The create handler tests its text fields for truthiness: an
    authenticated request whose [title], [description] or [instructions] is
    the empty string is answered 400 "Missing or invalid fields" and stores
    nothing. An empty [ingredients] array passes [Array.isArray]: with the
    three text fields truthy and the inserted id new to the collection, the
    recipe is appended with [ingredients = []] and returned with 201. *)
Theorem create_recipe_truthiness (env : Env) (rnd : Entropy) (req : Request) (st : Store)
    (owner : ObjectId) :
  subject env req = Some owner ->
  ((field (body req) "title" = JStr "" \/ field (body req) "description" = JStr "" \/
    field (body req) "instructions" = JStr "") ->
   create_recipe env rnd req st =
     (Returned (respond 400 (message "Missing or invalid fields")), st)) /\
  (truthy (field (body req) "title") = true ->
   truthy (field (body req) "description") = true ->
   truthy (field (body req) "instructions") = true ->
   field (body req) "ingredients" = JArr [] ->
   (forall r, In r (recipes st) -> Recipe._id r <> insertedId rnd) ->
   exists ownerUsername,
     let created :=
       Recipe.mk (insertedId rnd) (field (body req) "title")
                 (field (body req) "description") (JArr [])
                 (field (body req) "instructions") owner ownerUsername in
     create_recipe env rnd req st =
       (Returned (respond 201 (Recipe.toObject created)),
        {| users := users st; recipes := recipes st ++ [created] |})).
Proof.
  intros Hsubject. unfold create_recipe, create_recipe_handler.
  enter_route Hsubject. split.
  - intros [-> | [-> | ->]]; cbn; rewrite ?orb_true_r; reflexivity.
  - intros -> -> -> -> Hfresh. cbn.
    unfold try_catch, bind, attempt, recipes_insertOne, recipes_findOne.
    rewrite Hverify. cbn. rewrite Hsub, Howner. cbn.
    rewrite (insertOne_fresh Recipe._id) by exact Hfresh.
    cbn. rewrite findOne_inserted.
    + eexists. reflexivity.
    + intros r Hr. apply N.eqb_neq. now apply Hfresh.
    + apply N.eqb_refl.
Qed.
End Claims.

(** ** The theorems at work on the demonstration store *)

(** Bob, authenticated, tries to retitle and then to delete Alice's pancakes:
    404 both times, as for an id nobody has. *)
Lemma owner_scoped_not_found_witness :
  let req := Demo.as_user "bob.jwt" "000000000000000000000051"
                          (JObj [("title", JStr "Mine now")]) in
  @patch_recipe Demo.lib Demo.env req Demo.store =
    (Returned (respond 404 (message "Recipe not found")), Demo.store) /\
  @delete_recipe Demo.lib Demo.env req Demo.store =
    (Returned (respond 404 (message "Recipe not found")), Demo.store).
Proof.
  intro req.
  destruct (@owner_scoped_not_found Demo.lib Demo.env req Demo.bob_id Demo.pancakes_id
              eq_refl eq_refl Demo.store) as [Hpatch Hdelete].
  - intros r [<- | [<- | []]] Hid; [discriminate | discriminate Hid].
  - split; [exact (Hpatch _ eq_refl) | exact Hdelete].
Defined.

(** C1, counterexample. Bob's token is valid and in both requests no recipe
    matches the id together with Bob as owner, yet neither answer is the 404:
    a PATCH whose body has none of the four fields is answered 400 before the
    store is asked, and a DELETE whose id is not an object id is answered
    500. *)
Lemma update_delete_not_always_404 :
  let patch := Demo.as_user "bob.jwt" "000000000000000000000099" (JObj []) in
  let delete := Demo.as_user "bob.jwt" "pancakes" JUndefined in
  let unmatched req :=
    forall r, In r (recipes Demo.store) ->
      ~ (@ObjectId_new Demo.lib (params_id req) = Some (Recipe._id r) /\
         Recipe.ownerId r = Demo.bob_id) in
  @subject Demo.lib Demo.env patch = Some Demo.bob_id /\ unmatched patch /\
  @patch_recipe Demo.lib Demo.env patch Demo.store =
    (Returned (respond 400 (message "No valid fields to update")), Demo.store) /\
  @subject Demo.lib Demo.env delete = Some Demo.bob_id /\ unmatched delete /\
  @delete_recipe Demo.lib Demo.env delete Demo.store =
    (Returned (respond 500 (message "Recipe deletion failed")), Demo.store) /\
  status (respond 400 (message "No valid fields to update")) <> 404 /\
  status (respond 500 (message "Recipe deletion failed")) <> 404.
Proof.
  cbv zeta. split; [reflexivity|]. split.
  { intros r [<- | [<- | []]] [Hid Hown]; discriminate. }
  split; [reflexivity|]. split; [reflexivity|]. split.
  { intros r [<- | [<- | []]] [Hid Hown]; discriminate. }
  split; [reflexivity|]. split; discriminate.
Qed.

(** An id nobody has, and a string that is no id. *)
Lemma get_recipe_outcomes_witness :
  @get_recipe Demo.lib (Demo.anonymous "000000000000000000000099") Demo.store =
    (Returned (respond 404 (message "Recipe not found")), Demo.store) /\
  @get_recipe Demo.lib (Demo.anonymous "pancakes") Demo.store =
    (Returned (respond 400 (message "Invalid recipe id")), Demo.store).
Proof.
  split.
  - apply (proj1 (@get_recipe_outcomes Demo.lib
                    (Demo.anonymous "000000000000000000000099") Demo.store) 0x99%N eq_refl).
    intros r [<- | [<- | []]]; discriminate.
  - exact (proj2 (@get_recipe_outcomes Demo.lib (Demo.anonymous "pancakes") Demo.store)
                 eq_refl).
Defined.

(** C2, counterexample. ["pancakes"] is not an object id, and the read is
    answered 400 "Invalid recipe id", not the 404. *)
Lemma get_recipe_malformed_id_is_400 :
  @ObjectId_new Demo.lib "pancakes" = None /\
  @get_recipe Demo.lib (Demo.anonymous "pancakes") Demo.store =
    (Returned (respond 400 (message "Invalid recipe id")), Demo.store) /\
  respond 400 (message "Invalid recipe id") <> respond 404 (message "Recipe not found").
Proof.
  split; [reflexivity|]. split; [reflexivity | discriminate].
Qed.

(** A wrong guess at Alice's password and a login nobody has. *)
Lemma login_invalid_credentials_witness :
  let wrong :=
    credentials (JObj [("username", JStr "alice"); ("password", JStr "guess")]) in
  let unknown :=
    credentials (JObj [("email", JStr "nobody@example.org"); ("password", JStr "guess")]) in
  @login_handler Demo.lib Demo.env Demo.rnd wrong Demo.store =
    (Returned (respond 401 (message "Invalid credentials")), Demo.store) /\
  @login_handler Demo.lib Demo.env Demo.rnd unknown Demo.store =
    (Returned (respond 401 (message "Invalid credentials")), Demo.store).
Proof.
  intros wrong unknown.
  apply (proj1 (@login_invalid_credentials Demo.lib Demo.env Demo.rnd Demo.store)
           "s3cret" wrong unknown "guess"
           (fun a => matches_string "alice" (User.username a)
                     || matches_string "alice" (User.email a))
           (fun a => matches_string "nobody@example.org" (User.username a)
                     || matches_string "nobody@example.org" (User.email a))
           Demo.alice).
  - split; [reflexivity | discriminate].
  - reflexivity.
  - split; [reflexivity | discriminate].
  - reflexivity.
  - reflexivity.
  - reflexivity.
  - reflexivity.
  - reflexivity.
  - reflexivity.
  - intros u [<- | [<- | []]]; reflexivity.
Defined.

(** C3, counterexample. Alice exists and none of the passwords below verifies
    against her hash, yet the answers are not 401 "Invalid credentials": an
    empty password is answered 400 as a missing field, and with no signing
    secret in the environment a wrong password is answered 500. A password
    that is the number 12345 makes bcrypt throw: the login that names Alice
    is answered 500 "Login failed", the same password under a name nobody has
    is answered 401. And a username no account has, the object
    [{ "$foo": 1 }], is refused by the store as a filter and answered
    500 "Login failed". *)
Lemma login_wrong_password_not_always_401 :
  let empty := credentials (JObj [("username", JStr "alice"); ("password", JStr "")]) in
  let wrong := credentials (JObj [("username", JStr "alice"); ("password", JStr "guess")]) in
  let number := credentials (JObj [("username", JStr "alice"); ("password", JNum 12345)]) in
  let nobody := credentials (JObj [("username", JStr "nobody"); ("password", JNum 12345)]) in
  let operator :=
    credentials (JObj [("username", JObj [("$foo", JNum 1)]); ("password", JStr "guess")]) in
  let no_secret := {| JWT_SECRET := None |} in
  (exists filter,
     @or_username_email Demo.lib (JStr "alice") (JStr "alice") = Some filter /\
     findOne filter (users Demo.store) = Some Demo.alice) /\
  (exists filter,
     @or_username_email Demo.lib (JStr "nobody") (JStr "nobody") = Some filter /\
     findOne filter (users Demo.store) = None) /\
  (forall a, In a (users Demo.store) ->
     User.username a <> identifier_of operator /\
     User.email a <> identifier_of operator) /\
  @comparePassword Demo.lib (JStr "") (User.password Demo.alice) = Some false /\
  @comparePassword Demo.lib (JStr "guess") (User.password Demo.alice) = Some false /\
  @comparePassword Demo.lib (JNum 12345) (User.password Demo.alice) = None /\
  @login_handler Demo.lib Demo.env Demo.rnd empty Demo.store =
    (Returned (respond 400 (message "Missing required fields")), Demo.store) /\
  @login_handler Demo.lib no_secret Demo.rnd wrong Demo.store =
    (Returned (respond 500 (message "JWT secret not configured")), Demo.store) /\
  @login_handler Demo.lib Demo.env Demo.rnd number Demo.store =
    (Returned (respond 500 (message "Login failed")), Demo.store) /\
  @login_handler Demo.lib Demo.env Demo.rnd nobody Demo.store =
    (Returned (respond 401 (message "Invalid credentials")), Demo.store) /\
  @login_handler Demo.lib Demo.env Demo.rnd operator Demo.store =
    (Returned (respond 500 (message "Login failed")), Demo.store) /\
  status (respond 400 (message "Missing required fields")) <> 401 /\
  status (respond 500 (message "JWT secret not configured")) <> 401 /\
  status (respond 500 (message "Login failed")) <> 401.
Proof.
  cbv zeta. split; [eexists; split; reflexivity|]. split; [eexists; split; reflexivity|].
  split; [intros a [<- | [<- | []]]; split; discriminate|].
  do 8 (split; [reflexivity|]). split; [|split]; discriminate.
Qed.

(** Alice's name is taken; Carol is new. *)
Lemma register_outcomes_witness :
  let taken :=
    credentials (JObj [("username", JStr "alice"); ("email", JStr "a@example.org");
                       ("password", JStr "rabbit")]) in
  let fresh :=
    credentials (JObj [("username", JStr "carol"); ("email", JStr "carol@example.org");
                       ("password", JStr "rabbit")]) in
  @register_handler Demo.lib Demo.rnd taken Demo.store =
    (Returned (respond 409 (message "User already exists")), Demo.store) /\
  @register_handler Demo.lib Demo.rnd fresh Demo.store =
    (Returned (respond 201 (JObj [ ("_id", JOid 0x77%N); ("username", JStr "carol");
                                   ("email", JStr "carol@example.org") ])),
     {| users := [Demo.alice; Demo.bob;
                  User.mk 0x77%N (JStr "carol") (JStr "carol@example.org") "salt$rabbit"];
        recipes := recipes Demo.store |}).
Proof.
  intros taken fresh.
  assert (Hp : sent (JStr "rabbit") "rabbit") by (split; [reflexivity | discriminate]).
  assert (Ht : sent (username taken) "alice" /\ sent (email taken) "a@example.org")
    by (split; (split; [reflexivity | discriminate])).
  assert (Hf : sent (username fresh) "carol" /\ sent (email fresh) "carol@example.org")
    by (split; (split; [reflexivity | discriminate])).
  destruct (@register_outcomes Demo.lib Demo.rnd taken Demo.store _ _ _
              (proj1 Ht) (proj2 Ht) Hp) as [Hdup _].
  destruct (@register_outcomes Demo.lib Demo.rnd fresh Demo.store _ _ _
              (proj1 Hf) (proj2 Hf) Hp) as [_ Hnew].
  split.
  - apply Hdup. exists Demo.alice. split; [now left | now left].
  - apply Hnew.
    + intros a [<- | [<- | []]]; split; reflexivity.
    + intros a [<- | [<- | []]]; discriminate.
Defined.

(** C4, counterexample. The username is Alice's, but the email is the empty
    string: the request is answered 400 "Missing required fields", not the
    409, without the collection being read. And Carol, whose name and email
    nobody has, is not inserted when her password is the number 12345, on
    which bcrypt throws, nor is a newcomer whose username is the object
    [{ "$foo": 1 }], which the store refuses in a filter: both are answered
    500 "Registration failed". *)
Lemma register_taken_username_not_always_409 :
  let b :=
    credentials (JObj [("username", JStr "alice"); ("email", JStr "");
                       ("password", JStr "rabbit")]) in
  let number :=
    credentials (JObj [("username", JStr "carol"); ("email", JStr "carol@example.org");
                       ("password", JNum 12345)]) in
  let operator :=
    credentials (JObj [("username", JObj [("$foo", JNum 1)]);
                       ("email", JStr "carol@example.org"); ("password", JStr "rabbit")]) in
  (exists a, In a (users Demo.store) /\ User.username a = JStr "alice") /\
  @register_handler Demo.lib Demo.rnd b Demo.store =
    (Returned (respond 400 (message "Missing required fields")), Demo.store) /\
  status (respond 400 (message "Missing required fields")) <> 409 /\
  (forall a, In a (users Demo.store) ->
     User.username a <> JStr "carol" /\ User.username a <> username operator /\
     User.email a <> JStr "carol@example.org") /\
  @register_handler Demo.lib Demo.rnd number Demo.store =
    (Returned (respond 500 (message "Registration failed")), Demo.store) /\
  @register_handler Demo.lib Demo.rnd operator Demo.store =
    (Returned (respond 500 (message "Registration failed")), Demo.store) /\
  status (respond 500 (message "Registration failed")) <> 201.
Proof.
  cbv zeta. split; [|split; [|split; [|split; [|split; [|split]]]]].
  - exists Demo.alice. split; [now left | reflexivity].
  - reflexivity.
  - discriminate.
  - intros a [<- | [<- | []]]; (split; [|split]); discriminate.
  - reflexivity.
  - reflexivity.
  - discriminate.
Qed.

(** What Carol gets back from her registration. *)
Lemma sanitized_accounts_witness :
  let b :=
    credentials (JObj [("username", JStr "carol"); ("email", JStr "carol@example.org");
                       ("password", JStr "rabbit")]) in
  let carol := User.mk 0x77%N (JStr "carol") (JStr "carol@example.org") "salt$rabbit" in
  exists created,
    In created [Demo.alice; Demo.bob; carol] /\
    JObj [ ("_id", JOid 0x77%N); ("username", JStr "carol");
           ("email", JStr "carol@example.org") ] =
      JObj (sanitizeUser (User.toObject created)).
Proof.
  intros b carol.
  exact (proj1 (proj2 (proj2 (@sanitized_accounts Demo.lib)))
           Demo.rnd b Demo.store
           (respond 201 (JObj [ ("_id", JOid 0x77%N); ("username", JStr "carol");
                                ("email", JStr "carol@example.org") ]))
           {| users := [Demo.alice; Demo.bob; carol]; recipes := recipes Demo.store |}
           eq_refl eq_refl).
Defined.

(** The four ways through the gate. *)
Lemma requireAuth_outcomes_witness :
  @requireAuth Demo.lib Demo.env (Demo.anonymous "x") =
    inl (respond 401 (message "Missing token")) /\
  @requireAuth Demo.lib {| JWT_SECRET := None |} (Demo.as_user "alice.jwt" "x" JUndefined) =
    inl (respond 500 (message "JWT secret not configured")) /\
  @requireAuth Demo.lib Demo.env (Demo.as_user "forged.jwt" "x" JUndefined) =
    inl (respond 401 (message "Invalid token")) /\
  @requireAuth Demo.lib Demo.env (Demo.as_user "alice.jwt" "x" JUndefined) = inr tt.
Proof.
  destruct (@requireAuth_outcomes Demo.lib Demo.env (Demo.anonymous "x"))
    as (Hmissing & _ & _).
  destruct (@requireAuth_outcomes Demo.lib {| JWT_SECRET := None |}
              (Demo.as_user "alice.jwt" "x" JUndefined)) as (_ & Hunset & _).
  destruct (Hunset "alice.jwt" ltac:(discriminate) eq_refl) as [Hconfig _].
  destruct (@requireAuth_outcomes Demo.lib Demo.env
              (Demo.as_user "forged.jwt" "x" JUndefined)) as (_ & Hforged & _).
  destruct (Hforged "forged.jwt" ltac:(discriminate) eq_refl) as [_ Hforged'].
  destruct (Hforged' "s3cret" ltac:(discriminate) eq_refl) as [Hinvalid _].
  destruct (@requireAuth_outcomes Demo.lib Demo.env
              (Demo.as_user "alice.jwt" "x" JUndefined)) as (_ & Halice & _).
  destruct (Halice "alice.jwt" ltac:(discriminate) eq_refl) as [_ Halice'].
  destruct (Halice' "s3cret" ltac:(discriminate) eq_refl) as [_ Hnext].
  split; [|split; [|split]].
  - apply Hmissing. intros t _. discriminate.
  - apply Hconfig. now left.
  - exact (Hinvalid eq_refl).
  - exact (Hnext _ eq_refl).
Defined.

(** Alice retitles her pancakes; a body with no recognised field is refused. *)
Lemma patch_recipe_validation_witness :
  let retitle := Demo.as_user "alice.jwt" "000000000000000000000051"
                              (JObj [("title", JStr "Crepes")]) in
  let nothing := Demo.as_user "alice.jwt" "000000000000000000000051"
                              (JObj [("rating", JNum 5)]) in
  let crepes :=
    Recipe.mk Demo.pancakes_id (JStr "Crepes") (JStr "Thin ones")
              (JArr [JStr "flour"; JStr "milk"; JStr "eggs"]) (JStr "Whisk and fry.")
              Demo.alice_id (JStr "alice") in
  @build_update retitle.(body) = inr [("title", JStr "Crepes")] /\
  (exists st',
     @patch_recipe Demo.lib Demo.env retitle Demo.store =
       (Returned (respond 200 (Recipe.toObject crepes)), st') /\
     users st' = users Demo.store /\
     findOne (fun r => (Recipe._id r =? Demo.pancakes_id)%N) (recipes st') = Some crepes) /\
  @patch_recipe Demo.lib Demo.env nothing Demo.store =
    (Returned (respond 400 (message "No valid fields to update")), Demo.store).
Proof.
  intros retitle nothing crepes.
  destruct (@patch_recipe_validation Demo.lib Demo.env retitle Demo.store Demo.alice_id
              eq_refl) as (Haccept & Hwrite & _ & _).
  destruct (@patch_recipe_validation Demo.lib Demo.env nothing Demo.store Demo.alice_id
              eq_refl) as (_ & _ & Hnothing & _).
  split; [|split].
  - apply Haccept; [now left | discriminate].
  - destruct (Hwrite [("title", JStr "Crepes")] eq_refl) as [_ Hstored].
    exact (Hstored Demo.pancakes_id Demo.pancakes eq_refl eq_refl eq_refl).
  - exact (Hnothing eq_refl).
Defined.

(** The token outlived its account: the stew goes, the answer is 404. *)
Lemma delete_account_without_account_witness :
  let req := Demo.as_user "ghost.jwt" "" JUndefined in
  (exists st',
     @delete_account Demo.lib Demo.env req Demo.store =
       (Returned (respond 404 (message "User not found")), st') /\
     users st' = users Demo.store /\
     (forall r, In r (recipes st') <->
                In r (recipes Demo.store) /\ Recipe.ownerId r <> Demo.ghost_id)) /\
  @delete_account Demo.lib Demo.env req Demo.store =
    (Returned (respond 404 (message "User not found")),
     {| users := [Demo.alice; Demo.bob]; recipes := [Demo.pancakes] |}).
Proof.
  intros req. split; [|reflexivity].
  apply (@delete_account_without_account Demo.lib Demo.env req Demo.store Demo.ghost_id
           eq_refl).
  intros u [<- | [<- | []]]; discriminate.
Defined.

(** The same malformed id on the two routes. *)
Lemma delete_recipe_malformed_id_witness :
  let req := Demo.as_user "alice.jwt" "pancakes" (JObj [("title", JStr "Crepes")]) in
  @delete_recipe Demo.lib Demo.env req Demo.store =
    (Returned (respond 500 (message "Recipe deletion failed")), Demo.store) /\
  @patch_recipe Demo.lib Demo.env req Demo.store =
    (Returned (respond 400 (message "Invalid recipe id")), Demo.store).
Proof.
  intros req.
  destruct (@delete_recipe_malformed_id Demo.lib Demo.env req Demo.store Demo.alice_id
              eq_refl eq_refl) as (Hdelete & _ & Hpatch).
  split; [exact Hdelete | exact (Hpatch _ eq_refl)].
Defined.

(** An empty title is refused; an empty list of ingredients is stored. *)
Lemma create_recipe_truthiness_witness :
  let untitled :=
    Demo.as_user "alice.jwt" ""
      (JObj [ ("title", JStr ""); ("description", JStr "Plain"); ("ingredients", JArr []);
              ("instructions", JStr "Boil.") ]) in
  let water :=
    Demo.as_user "alice.jwt" ""
      (JObj [ ("title", JStr "Water"); ("description", JStr "Plain");
              ("ingredients", JArr []); ("instructions", JStr "Boil.") ]) in
  @create_recipe Demo.lib Demo.env Demo.rnd untitled Demo.store =
    (Returned (respond 400 (message "Missing or invalid fields")), Demo.store) /\
  exists ownerUsername,
    let created :=
      Recipe.mk 0x77%N (JStr "Water") (JStr "Plain") (JArr []) (JStr "Boil.")
                Demo.alice_id ownerUsername in
    @create_recipe Demo.lib Demo.env Demo.rnd water Demo.store =
      (Returned (respond 201 (Recipe.toObject created)),
       {| users := users Demo.store; recipes := recipes Demo.store ++ [created] |}).
Proof.
  intros untitled water. split.
  - apply (proj1 (@create_recipe_truthiness Demo.lib Demo.env Demo.rnd untitled Demo.store
                    Demo.alice_id eq_refl)).
    now left.
  - apply (proj2 (@create_recipe_truthiness Demo.lib Demo.env Demo.rnd water Demo.store
                    Demo.alice_id eq_refl)); try reflexivity.
    intros r [<- | [<- | []]]; discriminate.
Defined.

(** ** Two runs from the specification's list of testable properties *)

(** Alice creates a recipe; anyone reads it; Bob cannot patch it (404); Alice
    deletes it; it is gone. *)
Example recipe_life_cycle :
  let soup := JObj [ ("title", JStr "Soup"); ("description", JStr "Hot");
                     ("ingredients", JArr [JStr "water"]); ("instructions", JStr "Boil.") ] in
  let id := "000000000000000000000077" in
  List.map (fun r => match r with Returned resp => status resp | Thrown => 0 end)
    (fst (run [ @create_recipe Demo.lib Demo.env Demo.rnd (Demo.as_user "alice.jwt" "" soup);
                @get_recipe Demo.lib (Demo.anonymous id);
                @patch_recipe Demo.lib Demo.env
                  (Demo.as_user "bob.jwt" id (JObj [("title", JStr "Broth")]));
                @delete_recipe Demo.lib Demo.env (Demo.as_user "alice.jwt" id JUndefined);
                @get_recipe Demo.lib (Demo.anonymous id) ]
              Demo.store))
  = [201; 200; 404; 200; 404].
Proof. reflexivity. Qed.

(** Alice logs in, deletes her account, and with it her pancakes; her login
    then fails with 401. *)
Example account_removal :
  let creds :=
    credentials (JObj [("username", JStr "alice"); ("password", JStr "wonderland")]) in
  let result :=
    run [ @login_handler Demo.lib Demo.env Demo.rnd creds;
          @delete_account Demo.lib Demo.env (Demo.as_user "alice.jwt" "" JUndefined);
          @get_recipe Demo.lib (Demo.anonymous "000000000000000000000051");
          @login_handler Demo.lib Demo.env Demo.rnd creds ]
        Demo.store in
  List.map (fun r => match r with Returned resp => status resp | Thrown => 0 end) (fst result)
    = [200; 200; 404; 401] /\
  snd result = {| users := [Demo.bob]; recipes := [Demo.stew] |}.
Proof. split; reflexivity. Qed.

(** * Further properties of the routes *)

(** ** More on the collections *)

Section Collection_more.
Context {D : Type}.
Variable q : D -> bool.

Lemma updateOne_count (f : D -> D) (c : list D) :
  fst (updateOne q f c) = 0 \/ fst (updateOne q f c) = 1.
Proof.
  induction c as [|d c IH]; simpl; [now left|].
  destruct (q d); [now right|].
  destruct (updateOne q f c) as [n c']. exact IH.
Qed.

Lemma updateOne_unmatched (f : D -> D) (c : list D) :
  fst (updateOne q f c) = 0 -> snd (updateOne q f c) = c.
Proof.
  induction c as [|d c IH]; simpl; [reflexivity|].
  destruct (q d); [discriminate|].
  destruct (updateOne q f c) as [n c']. simpl in *. intros Hn. now rewrite IH.
Qed.

Lemma updateOne_map {K : Type} (g : D -> K) (f : D -> D) (c : list D) :
  (forall d, g (f d) = g d) ->
  map g (snd (updateOne q f c)) = map g c.
Proof.
  intros Hg. induction c as [|d c IH]; simpl; [reflexivity|].
  destruct (q d); simpl; [now rewrite Hg|].
  destruct (updateOne q f c) as [n c']. simpl in *. now rewrite IH.
Qed.

Lemma updateOne_keeps (f : D -> D) (c : list D) (d : D) :
  In d c -> q d = false -> In d (snd (updateOne q f c)).
Proof.
  induction c as [|d' c IH]; simpl; [tauto|].
  intros Hin Hq. destruct (q d') eqn:E.
  - destruct Hin as [<- | Hin]; [congruence | now right].
  - destruct (updateOne q f c) as [n c']. simpl in *.
    destruct Hin as [-> | Hin]; [now left | right; now apply IH].
Qed.

Lemma updateOne_origin (f : D -> D) (c : list D) (d' : D) :
  In d' (snd (updateOne q f c)) ->
  In d' c \/ exists d, In d c /\ q d = true /\ d' = f d.
Proof.
  induction c as [|d c IH]; simpl; [tauto|].
  destruct (q d) eqn:E; simpl.
  - intros [<- | Hin]; [right; exists d; auto | left; now right].
  - destruct (updateOne q f c) as [n c']. simpl in *.
    intros [<- | Hin]; [left; now left|].
    destruct (IH Hin) as [H | (x & Hx & Hqx & ->)]; [left; now right|].
    right. exists x. auto.
Qed.

Lemma updateOne_matched_found (idq : D -> bool) (f : D -> D) (c : list D) :
  (forall d, q d = true -> idq (f d) = true) ->
  fst (updateOne q f c) = 1 ->
  exists u, findOne idq (snd (updateOne q f c)) = Some u.
Proof.
  intros Hq. unfold findOne. induction c as [|d c IH]; simpl; [discriminate|].
  destruct (q d) eqn:E; simpl.
  - intros _. rewrite (Hq d E). now exists (f d).
  - destruct (updateOne q f c) as [n c']. simpl in *. intros Hn.
    destruct (idq d); [now exists d | now apply IH].
Qed.

(** Updating twice with an idempotent change that keeps the filter is
    updating once. *)
Lemma updateOne_twice (f : D -> D) (c : list D) :
  (forall d, q (f d) = q d) -> (forall d, f (f d) = f d) ->
  updateOne q f (snd (updateOne q f c)) = updateOne q f c.
Proof.
  intros Hq Hf. induction c as [|d c IH]; simpl; [reflexivity|].
  destruct (q d) eqn:E; simpl.
  - now rewrite Hq, E, Hf.
  - destruct (updateOne q f c) as [n c']. simpl in *. now rewrite E, IH.
Qed.

Lemma deleteOne_count (c : list D) :
  fst (deleteOne q c) = 0 \/ fst (deleteOne q c) = 1.
Proof.
  induction c as [|d c IH]; simpl; [now left|].
  destruct (q d); [now right|].
  destruct (deleteOne q c) as [n c']. exact IH.
Qed.

Lemma deleteOne_unmatched (c : list D) :
  fst (deleteOne q c) = 0 -> snd (deleteOne q c) = c.
Proof.
  induction c as [|d c IH]; simpl; [reflexivity|].
  destruct (q d); [discriminate|].
  destruct (deleteOne q c) as [n c']. simpl in *. intros Hn. now rewrite IH.
Qed.

Lemma deleteOne_keeps (c : list D) (d : D) :
  In d c -> q d = false -> In d (snd (deleteOne q c)).
Proof.
  induction c as [|d' c IH]; simpl; [tauto|].
  intros Hin Hq. destruct (q d') eqn:E.
  - destruct Hin as [<- | Hin]; [congruence | exact Hin].
  - destruct (deleteOne q c) as [n c']. simpl in *.
    destruct Hin as [-> | Hin]; [now left | right; now apply IH].
Qed.

Lemma deleteOne_incl (c : list D) (d : D) :
  In d (snd (deleteOne q c)) -> In d c.
Proof.
  induction c as [|d' c IH]; simpl; [tauto|].
  destruct (q d'); simpl; [now right|].
  destruct (deleteOne q c) as [n c']. simpl in *.
  intros [<- | Hin]; [now left | right; now apply IH].
Qed.

Lemma deleteOne_some (c : list D) (d : D) :
  In d c -> q d = true -> fst (deleteOne q c) = 1.
Proof.
  induction c as [|d' c IH]; simpl; [tauto|].
  intros Hin Hq. destruct (q d') eqn:Eq; [reflexivity|].
  destruct Hin as [-> | Hin]; [congruence|].
  specialize (IH Hin Hq). now destruct (deleteOne q c).
Qed.

Lemma deleteOne_NoDup {K : Type} (g : D -> K) (c : list D) :
  NoDup (map g c) -> NoDup (map g (snd (deleteOne q c))).
Proof.
  induction c as [|d c IH]; simpl; [trivial|].
  intros Hnd. inversion Hnd as [|x l Hnotin Hnd']; subst.
  destruct (q d); simpl; [exact Hnd'|].
  pose proof (deleteOne_incl c) as Hincl.
  destruct (deleteOne q c) as [n c']. simpl in *. constructor; [|now apply IH].
  intros Hin. apply Hnotin. apply in_map_iff in Hin. destruct Hin as (x & Hx & Hin).
  apply in_map_iff. exists x. split; [exact Hx | now apply Hincl].
Qed.

(** With unique keys, once the document matching on its key is deleted no
    document with that key is left. *)
Lemma deleteOne_gone {K : Type} (g : D -> K) (c : list D) (d : D) :
  NoDup (map g c) -> In d c -> q d = true ->
  (forall x, q x = true -> g x = g d) ->
  forall x, In x (snd (deleteOne q c)) -> g x <> g d.
Proof.
  intros Hnd Hin Hq Hkey. induction c as [|d' c IH]; simpl in *; [tauto|].
  inversion Hnd as [|y l Hnotin Hnd']; subst.
  destruct (q d') eqn:E; simpl.
  - intros x Hx Heq. apply Hnotin. rewrite (Hkey d' E), <- Heq. now apply in_map.
  - destruct Hin as [-> | Hin]; [congruence|].
    specialize (IH Hnd' Hin).
    destruct (deleteOne q c) as [n c']. simpl in *.
    intros x [<- | Hx]; [|now apply IH].
    intros Heq. apply Hnotin. rewrite Heq. now apply in_map.
Qed.

Lemma deleteMany_twice (c : list D) :
  deleteMany q (deleteMany q c) = deleteMany q c.
Proof.
  unfold deleteMany. induction c as [|d c IH]; simpl; [reflexivity|].
  destruct (negb (q d)) eqn:Eq; simpl; [|exact IH].
  rewrite Eq. now f_equal.
Qed.

Lemma deleteMany_NoDup {K : Type} (g : D -> K) (c : list D) :
  NoDup (map g c) -> NoDup (map g (deleteMany q c)).
Proof.
  unfold deleteMany. induction c as [|d c IH]; simpl; [trivial|].
  intros Hnd. inversion Hnd as [|x l Hnotin Hnd']; subst.
  destruct (negb (q d)); simpl; [|now apply IH].
  constructor; [|now apply IH].
  intros Hin. apply Hnotin. apply in_map_iff in Hin. destruct Hin as (x & Hx & Hin).
  apply in_map_iff. exists x. split; [exact Hx|]. now apply filter_In in Hin.
Qed.

Lemma insertOne_inv (id_of : D -> ObjectId) (d : D) (c c' : list D) :
  insertOne id_of d c = Some c' ->
  c' = (c ++ [d])%list /\ forall x, In x c -> id_of x <> id_of d.
Proof.
  unfold insertOne. destruct (existsb _ c) eqn:E; [discriminate|].
  intros [= <-]. split; [reflexivity|].
  intros x Hx Heq. assert (existsb (fun d' => (id_of d' =? id_of d)%N) c = true).
  { apply existsb_exists. exists x. split; [exact Hx | now apply N.eqb_eq]. }
  congruence.
Qed.

End Collection_more.

Lemma NoDup_map_snoc {D K : Type} (g : D -> K) (c : list D) (d : D) :
  NoDup (map g c) -> (forall x, In x c -> g x <> g d) -> NoDup (map g (c ++ [d])).
Proof.
  intros Hnd Hfresh. rewrite map_app. simpl.
  apply NoDup_app; [exact Hnd | constructor; [tauto | constructor] |].
  intros y Hy [<- | []]. apply in_map_iff in Hy. destruct Hy as (x & Hx & Hin).
  now apply (Hfresh x Hin).
Qed.

(** ** The anatomy of each route

    Every run of a handler is one of a few shapes; the properties below are
    read off these. *)

Ltac refuse := left; eexists; split; [reflexivity | cbn; tauto].

Section Anatomy.
Context {lib : Libraries}.

Lemma store_eta (st : Store) : {| users := users st; recipes := recipes st |} = st.
Proof. now destruct st. Qed.

Lemma subject_intro (env : Env) (req : Request) (token secret sub : string)
    (payload : Jwt.Payload) (owner : ObjectId) :
  bearer (authorization req) = Some token -> token <> "" ->
  JWT_SECRET env = Some secret -> secret <> "" ->
  jwt_verify token secret = Some payload ->
  Jwt.sub payload = Some sub -> sub <> "" ->
  ObjectId_new sub = Some owner ->
  subject env req = Some owner.
Proof.
  intros Hb Ht Hs Hs' Hv Hsub Hsub' Hown. unfold subject. rewrite Hb.
  destruct token; [congruence|]. rewrite Hs. destruct secret; [congruence|].
  rewrite Hv, Hsub. destruct sub; [congruence | exact Hown].
Qed.

Lemma token_test_anatomy (env : Env) (req : Request) (st : Store) :
  exists resp, token_test env req st = (Returned resp, st) /\ In (status resp) [200; 401; 500].
Proof.
  unfold token_test, protected, requireAuth.
  destruct (bearer (authorization req)) as [[|a token]|];
    try (eexists; split; [reflexivity | cbn; tauto]).
  destruct (JWT_SECRET env) as [[|b secret]|];
    try (eexists; split; [reflexivity | cbn; tauto]).
  destruct (jwt_verify _ _); eexists; (split; [reflexivity | cbn; tauto]).
Qed.

Lemma get_recipe_anatomy (req : Request) (st : Store) :
  exists resp, get_recipe req st = (Returned resp, st) /\ In (status resp) [200; 400; 404].
Proof.
  unfold get_recipe, try_catch, bind, attempt, recipes_findOne.
  destruct (ObjectId_new (params_id req)); cbn;
    [|eexists; split; [reflexivity | cbn; tauto]].
  destruct (findOne _ (recipes st)); eexists; (split; [reflexivity | cbn; tauto]).
Qed.

Lemma login_anatomy (env : Env) (rnd : Entropy) (b : Credentials) (st : Store) :
  exists resp,
    login_handler env rnd b st = (Returned resp, st) /\ In (status resp) [200; 400; 401; 500].
Proof.
  unfold login_handler. cbv zeta.
  destruct (negb _ || negb _); [eexists; split; [reflexivity | cbn; tauto]|].
  destruct (JWT_SECRET env) as [[|d secret]|];
    try (eexists; split; [reflexivity | cbn; tauto]).
  unfold login_attempt, try_catch, bind, attempt, users_findOne.
  destruct (or_username_email _ _) as [filter|]; cbn;
    [|eexists; split; [reflexivity | cbn; tauto]].
  destruct (findOne _ (users st)) as [account|];
    [|eexists; split; [reflexivity | cbn; tauto]].
  destruct (comparePassword _ _) as [[|]|]; cbn;
    eexists; (split; [reflexivity | cbn; tauto]).
Qed.

Lemma register_anatomy (rnd : Entropy) (b : Credentials) (st : Store) :
  (exists resp,
     register_handler rnd b st = (Returned resp, st) /\ In (status resp) [400; 409; 500]) \/
  (exists filter hashed,
     or_username_email (username b) (email b) = Some filter /\
     hashPassword rnd (password b) = Some hashed /\
     (forall a, In a (users st) -> filter a = false) /\
     (forall a, In a (users st) -> User._id a <> insertedId rnd) /\
     register_handler rnd b st =
       (Returned (respond 201 (JObj (sanitizeUser (User.toObject
                    (User.mk (insertedId rnd) (username b) (email b) hashed))))),
        {| users := users st ++ [User.mk (insertedId rnd) (username b) (email b) hashed];
           recipes := recipes st |})).
Proof.
  unfold register_handler.
  destruct (negb _ || negb _ || negb _); [refuse|].
  unfold register_attempt, try_catch, bind, attempt, users_findOne, users_insertOne.
  destruct (or_username_email _ _) as [filter|]; cbn; [|refuse].
  destruct (findOne _ (users st)) as [existing|] eqn:Hfind; [refuse|].
  destruct (hashPassword _ _) as [hashed|]; cbn; [|refuse].
  destruct (insertOne _ _ _) as [c'|] eqn:Hins; [|refuse].
  apply insertOne_inv in Hins. destruct Hins as [-> Hfresh]. cbn in Hfresh.
  cbn. rewrite findOne_inserted.
  - right. exists filter, hashed.
    split; [reflexivity|]. split; [reflexivity|].
    split; [|split; [exact Hfresh | reflexivity]].
    intros x Hx. exact (find_none _ _ Hfind _ Hx).
  - intros x Hx. apply N.eqb_neq. now apply Hfresh.
  - apply N.eqb_refl.
Qed.

Lemma create_recipe_anatomy (env : Env) (rnd : Entropy) (req : Request) (st : Store) :
  (exists resp,
     create_recipe env rnd req st = (Returned resp, st) /\ In (status resp) [400; 401; 500]) \/
  (exists owner ownerUsername,
     subject env req = Some owner /\
     truthy (field (body req) "title") = true /\
     truthy (field (body req) "description") = true /\
     Array_isArray (field (body req) "ingredients") = true /\
     truthy (field (body req) "instructions") = true /\
     (forall r, In r (recipes st) -> Recipe._id r <> insertedId rnd) /\
     create_recipe env rnd req st =
       (Returned (respond 201 (Recipe.toObject
                    (Recipe.mk (insertedId rnd) (field (body req) "title")
                       (field (body req) "description") (field (body req) "ingredients")
                       (field (body req) "instructions") owner ownerUsername))),
        {| users := users st;
           recipes := recipes st ++
             [Recipe.mk (insertedId rnd) (field (body req) "title")
                (field (body req) "description") (field (body req) "ingredients")
                (field (body req) "instructions") owner ownerUsername] |})).
Proof.
  unfold create_recipe, protected, requireAuth, create_recipe_handler, with_token.
  destruct (bearer (authorization req)) as [[|a token]|] eqn:Hb; try refuse.
  destruct (JWT_SECRET env) as [[|b secret]|] eqn:Hs; try refuse.
  destruct (jwt_verify _ _) as [payload|] eqn:Hv; try refuse.
  destruct (truthy (field (body req) "title")) eqn:Ht; [|refuse].
  destruct (truthy (field (body req) "description")) eqn:Hd; [|refuse].
  destruct (Array_isArray (field (body req) "ingredients")) eqn:Hi; [|refuse].
  destruct (truthy (field (body req) "instructions")) eqn:Hn; [|refuse].
  cbn. unfold try_catch, bind, attempt. rewrite ?Hv. cbn.
  destruct (Jwt.sub payload) as [[|c sub]|] eqn:Hsub; try refuse.
  destruct (ObjectId_new (String c sub)) as [owner|] eqn:Hown; cbn; [|refuse].
  unfold recipes_insertOne, recipes_findOne.
  destruct (insertOne _ _ _) as [c'|] eqn:Hins; [|refuse].
  apply insertOne_inv in Hins. destruct Hins as [-> Hfresh]. cbn in Hfresh.
  cbn. rewrite findOne_inserted.
  - right. eexists owner, _. split.
    { eapply subject_intro; eauto; discriminate. }
    repeat split; try assumption.
  - intros x Hx. apply N.eqb_neq. now apply Hfresh.
  - apply N.eqb_refl.
Qed.

Lemma patch_recipe_anatomy (env : Env) (req : Request) (st : Store) :
  (exists resp,
     patch_recipe env req st = (Returned resp, st) /\
     In (status resp) [400; 401; 404; 500]) \/
  (exists owner rid c' updated,
     subject env req = Some owner /\
     ObjectId_new (params_id req) = Some rid /\
     build_update (body req) = inr (present_fields (body req)) /\
     updateOne (owned_by rid owner) (apply_set (present_fields (body req))) (recipes st) =
       (1, c') /\
     findOne (fun r => (Recipe._id r =? rid)%N) c' = Some updated /\
     patch_recipe env req st =
       (Returned (respond 200 (Recipe.toObject updated)),
        {| users := users st; recipes := c' |})).
Proof.
  unfold patch_recipe, protected, requireAuth, patch_recipe_handler, with_token.
  destruct (bearer (authorization req)) as [[|a token]|] eqn:Hb; try refuse.
  destruct (JWT_SECRET env) as [[|b secret]|] eqn:Hs; try refuse.
  destruct (jwt_verify _ _) as [payload|] eqn:Hv; try refuse.
  destruct (build_update (body req)) as [early|update] eqn:Hupd.
  { destruct (build_update_early _ _ Hupd) as [-> | ->]; refuse. }
  destruct (build_update_inr _ _ Hupd) as (-> & _ & _).
  remember (present_fields (body req)) as update eqn:Hupdate.
  unfold try_catch, bind, attempt. rewrite ?Hv. cbn.
  destruct (Jwt.sub payload) as [[|c sub]|] eqn:Hsub; try refuse.
  destruct (ObjectId_new (String c sub)) as [owner|] eqn:Hown; cbn; [|refuse].
  unfold ObjectId_isValid.
  destruct (ObjectId_new (params_id req)) as [rid|] eqn:Hid; cbn; [|refuse].
  unfold recipes_updateOne, recipes_findOne.
  destruct (updateOne_count (owned_by rid owner) (apply_set update)
              (recipes st)) as [Hn | Hn].
  - pose proof (updateOne_unmatched _ _ _ Hn) as Hsame.
    destruct (updateOne _ _ (recipes st)) as [n c']. simpl in Hn, Hsame. subst n c'.
    cbn. rewrite store_eta. refuse.
  - destruct (updateOne_matched_found (owned_by rid owner)
                (fun r => (Recipe._id r =? rid)%N)
                (apply_set update) (recipes st)) as (u & Hu).
    { intros d Hd. destruct (apply_set_keeps update d) as [-> _].
      unfold owned_by in Hd. now apply andb_true_iff in Hd. }
    { exact Hn. }
    destruct (updateOne _ _ (recipes st)) as [n c'] eqn:Hrun. simpl in Hn, Hu. subst n.
    cbn. unfold findOne in *. rewrite Hu.
    right. exists owner, rid, c', u. split.
    { eapply subject_intro; eauto; discriminate. }
    repeat split; try assumption.
Qed.

Lemma delete_recipe_anatomy (env : Env) (req : Request) (st : Store) :
  (exists resp,
     delete_recipe env req st = (Returned resp, st) /\ In (status resp) [401; 404; 500]) \/
  (exists owner rid c',
     subject env req = Some owner /\
     ObjectId_new (params_id req) = Some rid /\
     deleteOne (owned_by rid owner) (recipes st) = (1, c') /\
     delete_recipe env req st =
       (Returned (respond 200 (message "Recipe deleted")),
        {| users := users st; recipes := c' |})).
Proof.
  unfold delete_recipe, protected, requireAuth, delete_recipe_handler, with_token.
  destruct (bearer (authorization req)) as [[|a token]|] eqn:Hb; try refuse.
  destruct (JWT_SECRET env) as [[|b secret]|] eqn:Hs; try refuse.
  destruct (jwt_verify _ _) as [payload|] eqn:Hv; try refuse.
  unfold try_catch, bind, attempt. rewrite ?Hv. cbn.
  destruct (Jwt.sub payload) as [[|c sub]|] eqn:Hsub; try refuse.
  destruct (ObjectId_new (String c sub)) as [owner|] eqn:Hown; cbn; [|refuse].
  destruct (ObjectId_new (params_id req)) as [rid|] eqn:Hid; cbn; [|refuse].
  unfold recipes_deleteOne.
  destruct (deleteOne_count (owned_by rid owner) (recipes st)) as [Hn | Hn].
  - pose proof (deleteOne_unmatched _ _ Hn) as Hsame.
    destruct (deleteOne _ (recipes st)) as [n c']. simpl in Hn, Hsame. subst n c'.
    cbn. rewrite store_eta. refuse.
  - destruct (deleteOne _ (recipes st)) as [n c'] eqn:Hrun. simpl in Hn. subst n. cbn.
    right. exists owner, rid, c'. split.
    { eapply subject_intro; eauto; discriminate. }
    repeat split; try assumption.
Qed.

Lemma delete_account_anatomy (env : Env) (req : Request) (st : Store) :
  (exists resp,
     delete_account env req st = (Returned resp, st) /\ In (status resp) [401; 500]) \/
  (exists uid n c',
     subject env req = Some uid /\
     deleteOne (fun u => (User._id u =? uid)%N) (users st) = (n, c') /\
     delete_account env req st =
       (Returned (if (n =? 0)%nat then respond 404 (message "User not found")
                  else respond 200 (message "Account deleted")),
        {| users := c';
           recipes := deleteMany (fun r => (Recipe.ownerId r =? uid)%N) (recipes st) |})).
Proof.
  unfold delete_account, protected, requireAuth, delete_account_handler, with_token.
  destruct (bearer (authorization req)) as [[|a token]|] eqn:Hb; try refuse.
  destruct (JWT_SECRET env) as [[|b secret]|] eqn:Hs; try refuse.
  destruct (jwt_verify _ _) as [payload|] eqn:Hv; try refuse.
  unfold try_catch, bind, attempt. rewrite ?Hv. cbn.
  destruct (Jwt.sub payload) as [[|c sub]|] eqn:Hsub; try refuse.
  destruct (ObjectId_new (String c sub)) as [uid|] eqn:Hown; cbn; [|refuse].
  unfold recipes_deleteMany, users_deleteOne. cbn.
  destruct (deleteOne _ (users st)) as [n c'] eqn:Hdel. cbn.
  right. exists uid, n, c'. split.
  { eapply subject_intro; eauto; discriminate. }
  split; [exact Hdel|]. now destruct (n =? 0)%nat.
Qed.
End Anatomy.

(** ** What every route does and never does *)

Section Safety.
Context {lib : Libraries}.

Lemma get_recipes_run (st : Store) :
  get_recipes st = (Returned (respond 200 (JArr (map Recipe.toObject (recipes st)))), st).
Proof. reflexivity. Qed.

(** X1. No request ends in an uncaught exception: every route answers, and
    with one of the status codes its handler names. *)
Theorem serve_answers (env : Env) (rnd : Entropy) (call : Call) (st : Store) :
  exists resp st',
    serve env rnd call st = (Returned resp, st') /\ In (status resp) (statuses call).
Proof.
  destruct call as [b | b | req | req | req | req | req | req | ]; simpl.
  - destruct (register_anatomy rnd b st) as [(resp & -> & Hin) | (flt & hashed & _ & _ & _ & _ & ->)].
    + exists resp, st. split; [reflexivity|]. cbn in *. tauto.
    + eexists _, _. split; [reflexivity|]. cbn. tauto.
  - destruct (login_anatomy env rnd b st) as (resp & -> & Hin). now exists resp, st.
  - destruct (token_test_anatomy env req st) as (resp & -> & Hin). now exists resp, st.
  - destruct (create_recipe_anatomy env rnd req st)
      as [(resp & -> & Hin) | (o & n & _ & _ & _ & _ & _ & _ & ->)].
    + exists resp, st. split; [reflexivity|]. cbn in *. tauto.
    + eexists _, _. split; [reflexivity|]. cbn. tauto.
  - destruct (patch_recipe_anatomy env req st)
      as [(resp & -> & Hin) | (o & rid & c' & u & _ & _ & _ & _ & _ & ->)].
    + exists resp, st. split; [reflexivity|]. cbn in *. tauto.
    + eexists _, _. split; [reflexivity|]. cbn. tauto.
  - destruct (delete_account_anatomy env req st)
      as [(resp & -> & Hin) | (uid & n & c' & _ & _ & ->)].
    + exists resp, st. split; [reflexivity|]. cbn in *. tauto.
    + eexists _, _. split; [reflexivity|]. destruct (n =? 0)%nat; cbn; tauto.
  - destruct (delete_recipe_anatomy env req st)
      as [(resp & -> & Hin) | (o & rid & c' & _ & _ & _ & ->)].
    + exists resp, st. split; [reflexivity|]. cbn in *. tauto.
    + eexists _, _. split; [reflexivity|]. cbn. tauto.
  - destruct (get_recipe_anatomy req st) as (resp & -> & Hin). now exists resp, st.
  - rewrite get_recipes_run. eexists _, _. split; [reflexivity|]. cbn. tauto.
Qed.

(** X2. The store changes only when a write succeeds: register and create
    with 201, patch and delete-recipe with 200. The one exception is
    delete-account, which may also have removed recipes when it answers 404.
    Login, token-test and the two reads never change it. *)
Theorem store_changes_only_on_success (env : Env) (rnd : Entropy) (call : Call)
    (st st' : Store) (resp : Response) :
  serve env rnd call st = (Returned resp, st') ->
  st' <> st ->
  match call with
  | PostRegister _ | PostRecipe _ => status resp = 201
  | PatchRecipe _ | DeleteRecipe _ => status resp = 200
  | DeleteAccount _ => status resp = 200 \/ status resp = 404
  | PostLogin _ | GetTokenTest _ | GetRecipe _ | GetRecipes => False
  end.
Proof.
  destruct call as [b | b | req | req | req | req | req | req | ]; simpl.
  - destruct (register_anatomy rnd b st) as [(r & -> & _) | (flt & hashed & _ & _ & _ & _ & ->)].
    + intros [= _ <-] Hne. now elim Hne.
    + now intros [= <- _] _.
  - destruct (login_anatomy env rnd b st) as (r & -> & _). intros [= _ <-] Hne. now elim Hne.
  - destruct (token_test_anatomy env req st) as (r & -> & _).
    intros [= _ <-] Hne. now elim Hne.
  - destruct (create_recipe_anatomy env rnd req st)
      as [(r & -> & _) | (o & n & _ & _ & _ & _ & _ & _ & ->)].
    + intros [= _ <-] Hne. now elim Hne.
    + now intros [= <- _] _.
  - destruct (patch_recipe_anatomy env req st)
      as [(r & -> & _) | (o & rid & c' & u & _ & _ & _ & _ & _ & ->)].
    + intros [= _ <-] Hne. now elim Hne.
    + now intros [= <- _] _.
  - destruct (delete_account_anatomy env req st)
      as [(r & -> & _) | (uid & n & c' & _ & _ & ->)].
    + intros [= _ <-] Hne. now elim Hne.
    + intros [= <- _] _. destruct (n =? 0)%nat; [now right | now left].
  - destruct (delete_recipe_anatomy env req st)
      as [(r & -> & _) | (o & rid & c' & _ & _ & _ & ->)].
    + intros [= _ <-] Hne. now elim Hne.
    + now intros [= <- _] _.
  - destruct (get_recipe_anatomy req st) as (r & -> & _). intros [= _ <-] Hne. now elim Hne.
  - rewrite get_recipes_run. intros [= _ <-] Hne. now elim Hne.
Qed.

(** X3. No request removes or alters a recipe of another account: a recipe
    whose owner is not the subject of the request's token is in the store
    afterwards exactly as it was, whatever the route and whatever the answer. *)
Theorem foreign_recipes_untouched (env : Env) (rnd : Entropy) (call : Call) (st : Store)
    (r : Recipe.t) :
  In r (recipes st) ->
  caller env call <> Some (Recipe.ownerId r) ->
  In r (recipes (snd (serve env rnd call st))).
Proof.
  intros Hin Hforeign.
  destruct call as [b | b | req | req | req | req | req | req | ]; simpl in *.
  - destruct (register_anatomy rnd b st) as [(x & -> & _) | (flt & hashed & _ & _ & _ & _ & ->)];
      exact Hin.
  - destruct (login_anatomy env rnd b st) as (x & -> & _). exact Hin.
  - destruct (token_test_anatomy env req st) as (x & -> & _). exact Hin.
  - destruct (create_recipe_anatomy env rnd req st)
      as [(x & -> & _) | (o & n & _ & _ & _ & _ & _ & _ & ->)]; [exact Hin|].
    simpl. apply in_or_app. now left.
  - destruct (patch_recipe_anatomy env req st)
      as [(x & -> & _) | (o & rid & c' & u & Hsubj & _ & _ & Hrun & _ & ->)]; [exact Hin|].
    simpl. replace c' with (snd (updateOne (owned_by rid o)
                                   (apply_set (present_fields (body req))) (recipes st)))
      by now rewrite Hrun.
    apply updateOne_keeps; [exact Hin|]. apply owned_by_foreign. intros _ Heq.
    apply Hforeign. now rewrite Hsubj, Heq.
  - destruct (delete_account_anatomy env req st)
      as [(x & -> & _) | (uid & n & c' & Hsubj & _ & ->)]; [exact Hin|].
    simpl. unfold deleteMany. apply filter_In. split; [exact Hin|].
    apply negb_true_iff, N.eqb_neq. intros Heq. apply Hforeign. now rewrite Hsubj, Heq.
  - destruct (delete_recipe_anatomy env req st)
      as [(x & -> & _) | (o & rid & c' & Hsubj & _ & Hrun & ->)]; [exact Hin|].
    simpl. replace c' with (snd (deleteOne (owned_by rid o) (recipes st)))
      by now rewrite Hrun.
    apply deleteOne_keeps; [exact Hin|]. apply owned_by_foreign. intros _ Heq.
    apply Hforeign. now rewrite Hsubj, Heq.
  - destruct (get_recipe_anatomy req st) as (x & -> & _). exact Hin.
  - exact Hin.
Qed.

(** X4. An account is never modified, and it leaves the store only through
    DELETE /api/account with a token whose subject is its own id. *)
Theorem accounts_leave_by_own_token (env : Env) (rnd : Entropy) (call : Call) (st : Store)
    (u : User.t) :
  In u (users st) ->
  match call with
  | DeleteAccount req => subject env req <> Some (User._id u)
  | _ => True
  end ->
  In u (users (snd (serve env rnd call st))).
Proof.
  intros Hin Hother.
  destruct call as [b | b | req | req | req | req | req | req | ]; simpl in *.
  - destruct (register_anatomy rnd b st) as [(x & -> & _) | (flt & hashed & _ & _ & _ & _ & ->)];
      [exact Hin|]. simpl. apply in_or_app. now left.
  - destruct (login_anatomy env rnd b st) as (x & -> & _). exact Hin.
  - destruct (token_test_anatomy env req st) as (x & -> & _). exact Hin.
  - destruct (create_recipe_anatomy env rnd req st)
      as [(x & -> & _) | (o & n & _ & _ & _ & _ & _ & _ & ->)]; exact Hin.
  - destruct (patch_recipe_anatomy env req st)
      as [(x & -> & _) | (o & rid & c' & w & _ & _ & _ & _ & _ & ->)]; exact Hin.
  - destruct (delete_account_anatomy env req st)
      as [(x & -> & _) | (uid & n & c' & Hsubj & Hrun & ->)]; [exact Hin|].
    simpl. replace c' with (snd (deleteOne (fun a => (User._id a =? uid)%N) (users st)))
      by now rewrite Hrun.
    apply deleteOne_keeps; [exact Hin|]. apply N.eqb_neq. intros Heq.
    apply Hother. now rewrite Hsubj, Heq.
  - destruct (delete_recipe_anatomy env req st)
      as [(x & -> & _) | (o & rid & c' & _ & _ & _ & ->)]; exact Hin.
  - destruct (get_recipe_anatomy req st) as (x & -> & _). exact Hin.
  - exact Hin.
Qed.
End Safety.

(** ** Invariants of the store *)

Section Invariants.
Context {lib : Libraries}.

Lemma set_field_keeps_username (r : Recipe.t) (kv : string * jsval) :
  Recipe.ownerUsername (set_field r kv) = Recipe.ownerUsername r.
Proof.
  destruct kv as [k v]. unfold set_field.
  repeat (destruct (_ =? _); [reflexivity|]). reflexivity.
Qed.

Lemma apply_set_keeps_username (update : list (string * jsval)) (r : Recipe.t) :
  Recipe.ownerUsername (apply_set update r) = Recipe.ownerUsername r.
Proof.
  unfold apply_set. revert r. induction update as [|kv update IH]; intros r; simpl.
  - reflexivity.
  - rewrite IH. apply set_field_keeps_username.
Qed.

(** X5. A recipe's [_id], [ownerId] and [ownerUsername] never change: every
    recipe in the store after a request has them as a recipe of the store
    before had them, unless it is the recipe a POST /api/recipes has just
    inserted, whose owner is then the subject of that request's token. *)
Theorem recipe_owner_immutable (env : Env) (rnd : Entropy) (call : Call) (st : Store)
    (r' : Recipe.t) :
  In r' (recipes (snd (serve env rnd call st))) ->
  (exists r, In r (recipes st) /\ Recipe._id r = Recipe._id r' /\
             Recipe.ownerId r = Recipe.ownerId r' /\
             Recipe.ownerUsername r = Recipe.ownerUsername r') \/
  (exists req, call = PostRecipe req /\ Recipe._id r' = insertedId rnd /\
               subject env req = Some (Recipe.ownerId r')).
Proof.
  assert (Hsame : In r' (recipes st) ->
            exists r, In r (recipes st) /\ Recipe._id r = Recipe._id r' /\
                      Recipe.ownerId r = Recipe.ownerId r' /\
                      Recipe.ownerUsername r = Recipe.ownerUsername r').
  { intros Hin. now exists r'. }
  destruct call as [b | b | req | req | req | req | req | req | ]; simpl.
  - destruct (register_anatomy rnd b st) as [(x & -> & _) | (flt & hashed & _ & _ & _ & _ & ->)];
      intros Hin; left; now apply Hsame.
  - destruct (login_anatomy env rnd b st) as (x & -> & _). intros Hin; left; now apply Hsame.
  - destruct (token_test_anatomy env req st) as (x & -> & _).
    intros Hin; left; now apply Hsame.
  - destruct (create_recipe_anatomy env rnd req st)
      as [(x & -> & _) | (o & n & Hsubj & _ & _ & _ & _ & _ & ->)].
    + intros Hin; left; now apply Hsame.
    + simpl. intros Hin. apply in_app_or in Hin. destruct Hin as [Hin | [<- | []]].
      * left; now apply Hsame.
      * right. exists req. now repeat split.
  - destruct (patch_recipe_anatomy env req st)
      as [(x & -> & _) | (o & rid & c' & u & _ & _ & _ & Hrun & _ & ->)].
    + intros Hin; left; now apply Hsame.
    + simpl. intros Hin. left.
      replace c' with (snd (updateOne (owned_by rid o)
                                  (apply_set (present_fields (body req))) (recipes st)))
        in Hin by now rewrite Hrun.
      apply updateOne_origin in Hin. destruct Hin as [Hin | (r & Hr & _ & ->)].
      * now apply Hsame.
      * exists r. split; [exact Hr|].
        destruct (apply_set_keeps (present_fields (body req)) r) as [-> ->].
        now rewrite apply_set_keeps_username.
  - destruct (delete_account_anatomy env req st)
      as [(x & -> & _) | (uid & n & c' & _ & _ & ->)].
    + intros Hin; left; now apply Hsame.
    + simpl. unfold deleteMany. intros Hin. apply filter_In in Hin. left. now apply Hsame.
  - destruct (delete_recipe_anatomy env req st)
      as [(x & -> & _) | (o & rid & c' & _ & _ & Hrun & ->)].
    + intros Hin; left; now apply Hsame.
    + simpl. intros Hin. left. apply Hsame.
      apply (deleteOne_incl (owned_by rid o)). now rewrite Hrun.
  - destruct (get_recipe_anatomy req st) as (x & -> & _). intros Hin; left; now apply Hsame.
  - intros Hin; left; now apply Hsame.
Qed.

Lemma In_strings_of (s : string) (vs : list jsval) :
  In s (strings_of vs) <-> In (JStr s) vs.
Proof.
  induction vs as [|v vs IH]; simpl; [tauto|].
  destruct v; simpl; rewrite IH; split; intros H;
    try (now right); try (destruct H as [H | H]; [discriminate | exact H]).
  - destruct H as [<- | H]; [now left | now right].
  - destruct H as [[= <-] | H]; [now left | now right].
Qed.

Lemma strings_of_app (vs ws : list jsval) :
  strings_of (vs ++ ws) = (strings_of vs ++ strings_of ws)%list.
Proof.
  induction vs as [|v vs IH]; simpl; [reflexivity|].
  destruct v; simpl; now rewrite IH.
Qed.

Lemma NoDup_snoc {K : Type} (l : list K) (x : K) :
  NoDup l -> ~ In x l -> NoDup (l ++ [x]).
Proof.
  intros Hl Hx. induction Hl as [|y l Hy Hl IH]; simpl.
  - constructor; [intros [] | constructor].
  - constructor.
    + intros Hin. apply in_app_or in Hin. destruct Hin as [Hin | [-> | []]].
      * now apply Hy.
      * apply Hx. now left.
    + apply IH. intros Hin. apply Hx. now right.
Qed.

(** A new account keeps the string keys unique when no stored account
    answered the condition its own key puts. *)
Lemma strings_of_snoc (g : User.t -> jsval) (c : list User.t) (d : User.t)
    (p : jsval -> bool) :
  condition (g d) = Some p ->
  (forall a, In a c -> p (g a) = false) ->
  NoDup (strings_of (map g c)) ->
  NoDup (strings_of (map g (c ++ [d]))).
Proof.
  intros Hp Hnone Hnd. rewrite map_app, strings_of_app. simpl.
  destruct (g d) as [| | | |s| | |] eqn:Hg; simpl; rewrite ?app_nil_r; try exact Hnd.
  apply NoDup_snoc; [exact Hnd|].
  intros Hin. apply In_strings_of in Hin. apply in_map_iff in Hin.
  destruct Hin as (a & Ha & Hin).
  injection Hp as <-. specialize (Hnone a Hin). rewrite Ha in Hnone.
  now rewrite matches_string_refl in Hnone.
Qed.

Lemma strings_of_deleteOne (g : User.t -> jsval) (q : User.t -> bool) (c : list User.t) :
  NoDup (strings_of (map g c)) ->
  NoDup (strings_of (map g (snd (deleteOne q c)))).
Proof.
  induction c as [|d c IH]; simpl; intros Hnd; [exact Hnd|].
  assert (Hrest : NoDup (strings_of (map g c))).
  { destruct (g d); try exact Hnd. now inversion Hnd. }
  destruct (q d); [exact Hrest|].
  destruct (deleteOne q c) as [n c'] eqn:E. simpl in *.
  destruct (g d) as [| | | |s| | |]; try (now apply IH).
  inversion Hnd as [|? ? Hnotin Hnd']; subst. constructor; [|now apply IH].
  intros Hin. apply Hnotin. apply In_strings_of in Hin. apply In_strings_of.
  apply in_map_iff in Hin. destruct Hin as (a & Ha & Hin). apply in_map_iff.
  exists a. split; [exact Ha|]. apply (deleteOne_incl q). now rewrite E.
Qed.

Lemma serve_consistent (env : Env) (rnd : Entropy) (call : Call) (st : Store) :
  consistent st -> consistent (snd (serve env rnd call st)).
Proof.
  intros (Hui & Hun & Hue & Hri).
  destruct call as [b | b | req | req | req | req | req | req | ]; simpl.
  - destruct (register_anatomy rnd b st)
      as [(x & -> & _) | (flt & hashed & Hflt & _ & Hnew & Hfresh & ->)];
      [now repeat split|].
    apply or_username_email_inv in Hflt. destruct Hflt as (p & q & Hp & Hq & Hflt).
    assert (Hnone : forall a, In a (users st) ->
                      p (User.username a) = false /\ q (User.email a) = false).
    { intros a Ha. apply orb_false_iff. rewrite <- Hflt. now apply Hnew. }
    unfold consistent. simpl. repeat split; try assumption.
    + apply NoDup_map_snoc; [exact Hui | exact Hfresh].
    + apply (strings_of_snoc User.username _ _ p); [exact Hp | | exact Hun].
      intros a Ha. now apply Hnone.
    + apply (strings_of_snoc User.email _ _ q); [exact Hq | | exact Hue].
      intros a Ha. now apply Hnone.
  - destruct (login_anatomy env rnd b st) as (x & -> & _). now repeat split.
  - destruct (token_test_anatomy env req st) as (x & -> & _). now repeat split.
  - destruct (create_recipe_anatomy env rnd req st)
      as [(x & -> & _) | (o & n & _ & _ & _ & _ & _ & Hfresh & ->)];
      [now repeat split|].
    unfold consistent. simpl. repeat split; try assumption.
    apply NoDup_map_snoc; [exact Hri | exact Hfresh].
  - destruct (patch_recipe_anatomy env req st)
      as [(x & -> & _) | (o & rid & c' & u & _ & _ & _ & Hrun & _ & ->)];
      [now repeat split|].
    unfold consistent. simpl. repeat split; try assumption.
    replace c' with (snd (updateOne (owned_by rid o)
                                (apply_set (present_fields (body req))) (recipes st)))
      by now rewrite Hrun.
    rewrite updateOne_map; [exact Hri|].
    intros d. now destruct (apply_set_keeps (present_fields (body req)) d).
  - destruct (delete_account_anatomy env req st)
      as [(x & -> & _) | (uid & n & c' & _ & Hrun & ->)];
      [now repeat split|].
    unfold consistent. simpl.
    replace c' with (snd (deleteOne (fun a => (User._id a =? uid)%N) (users st)))
      by now rewrite Hrun.
    split; [now apply deleteOne_NoDup|].
    split; [now apply strings_of_deleteOne|].
    split; [now apply strings_of_deleteOne | now apply deleteMany_NoDup].
  - destruct (delete_recipe_anatomy env req st)
      as [(x & -> & _) | (o & rid & c' & _ & _ & Hrun & ->)];
      [now repeat split|].
    unfold consistent. simpl. repeat split; try assumption.
    replace c' with (snd (deleteOne (owned_by rid o) (recipes st))) by now rewrite Hrun.
    now apply deleteOne_NoDup.
  - destruct (get_recipe_anatomy req st) as (x & -> & _). now repeat split.
  - now repeat split.
Qed.

(** X6. Served one at a time, requests keep the store consistent, whatever
    JSON values their bodies hold: ids stay unique in both collections, and no
    two accounts share a username that is a string or an email that is a
    string. In particular this holds of every store reached from the empty
    one. Nothing is claimed of usernames and emails that are not strings. *)
Theorem consistent_preserved (env : Env) (calls : list (Entropy * Call)) :
  (forall st, consistent st -> consistent (serve_all env calls st)) /\
  consistent (serve_all env calls {| users := []; recipes := [] |}).
Proof.
  assert (Hall : forall st, consistent st -> consistent (serve_all env calls st)).
  { induction calls as [|[rnd call] calls IH]; intros st Hst; simpl; [exact Hst|].
    apply IH. now apply serve_consistent. }
  split; [exact Hall|]. apply Hall. repeat split; constructor.
Qed.
End Invariants.

(** ** How the routes compose *)

Section Unique_keys.
Context {D K : Type}.
Variable g : D -> K.

Lemma deleteOne_unique (q : D -> bool) (c : list D) (d : D) :
  NoDup (map g c) -> In d c -> q d = true ->
  (forall x, q x = true -> g x = g d) ->
  forall x, In x (snd (deleteOne q c)) <-> In x c /\ g x <> g d.
Proof.
  intros Hnd Hin Hq Hkey x. split.
  - intros Hx. split; [now apply (deleteOne_incl q) | now apply (deleteOne_gone q g c d)].
  - intros [Hx Hne]. apply deleteOne_keeps; [exact Hx|].
    destruct (q x) eqn:Eq; [|reflexivity]. now elim Hne; apply Hkey.
Qed.

Lemma findOne_unique (p : D -> bool) (c : list D) (r : D) :
  NoDup (map g c) -> In r c -> p r = true ->
  (forall x, p x = true -> g x = g r) ->
  findOne p c = Some r.
Proof.
  unfold findOne. intros Hnd Hin Hp Hkey. induction c as [|d c IH]; simpl in *; [tauto|].
  inversion Hnd as [|y l Hnotin Hnd']; subst.
  destruct (p d) eqn:Ep.
  - destruct Hin as [-> | Hin]; [reflexivity|].
    elim Hnotin. rewrite (Hkey d Ep). now apply in_map.
  - destruct Hin as [-> | Hin]; [congruence | now apply IH].
Qed.
End Unique_keys.

Section Composition.
Context {lib : Libraries}.

Lemma get_recipe_run (req : Request) (st : Store) (rid : ObjectId) :
  ObjectId_new (params_id req) = Some rid ->
  get_recipe req st =
    (Returned match findOne (fun r => (Recipe._id r =? rid)%N) (recipes st) with
              | Some item => respond 200 (Recipe.toObject item)
              | None => respond 404 (message "Recipe not found")
              end, st).
Proof.
  intros Hid. unfold get_recipe, try_catch, bind, attempt, recipes_findOne.
  rewrite Hid. cbn. now destruct (findOne _ (recipes st)).
Qed.

(** X7. What GET /api/recipes/:id finds: with unique ids, a stored recipe is
    returned whole, with 200, under the string its id parses from. *)
Theorem get_recipe_finds (req : Request) (st : Store) (r : Recipe.t) :
  NoDup (map Recipe._id (recipes st)) ->
  In r (recipes st) ->
  ObjectId_new (params_id req) = Some (Recipe._id r) ->
  get_recipe req st = (Returned (respond 200 (Recipe.toObject r)), st).
Proof.
  intros Hnd Hin Hid. rewrite (get_recipe_run req st _ Hid).
  rewrite (findOne_unique Recipe._id _ _ r Hnd Hin); [reflexivity | apply N.eqb_refl |].
  intros x Hx. now apply N.eqb_eq.
Qed.

(** X8. A recipe just created can be read back: after a 201 from
    POST /api/recipes, the read of the inserted id answers 200 with the very
    body the creation returned. *)
Theorem create_then_get (env : Env) (rnd : Entropy) (req get : Request)
    (st st' : Store) (resp : Response) :
  create_recipe env rnd req st = (Returned resp, st') ->
  status resp = 201 ->
  ObjectId_new (params_id get) = Some (insertedId rnd) ->
  get_recipe get st' = (Returned (respond 200 (json resp)), st').
Proof.
  intros Hrun H201 Hid.
  destruct (create_recipe_anatomy env rnd req st)
    as [(x & Hx & Hin) | (o & n & _ & _ & _ & _ & _ & Hfresh & Hok)].
  - rewrite Hx in Hrun. injection Hrun as <- <-. rewrite H201 in Hin.
    cbn in Hin. intuition discriminate.
  - rewrite Hok in Hrun. injection Hrun as <- <-.
    rewrite (get_recipe_run get _ _ Hid). simpl. rewrite findOne_inserted.
    + reflexivity.
    + intros x Hx. apply N.eqb_neq. now apply Hfresh.
    + apply N.eqb_refl.
Qed.

(** X9. A patch can be read back: after a 200 from PATCH /api/recipes/:id,
    the read of the same id answers with the same response, the updated
    recipe. *)
Theorem patch_then_get (env : Env) (req : Request) (st st' : Store) (resp : Response) :
  patch_recipe env req st = (Returned resp, st') ->
  status resp = 200 ->
  get_recipe req st' = (Returned resp, st').
Proof.
  intros Hrun H200.
  destruct (patch_recipe_anatomy env req st)
    as [(x & Hx & Hin) | (o & rid & c' & u & _ & Hid & _ & _ & Hfound & Hok)].
  - rewrite Hx in Hrun. injection Hrun as <- <-. rewrite H200 in Hin.
    cbn in Hin. intuition discriminate.
  - rewrite Hok in Hrun. injection Hrun as <- <-.
    rewrite (get_recipe_run req _ _ Hid). simpl. now rewrite Hfound.
Qed.

(** X10. The owner deletes a recipe: with unique ids, a valid token whose
    subject owns the recipe with the given id gets 200 "Recipe deleted"; the
    store loses that recipe and nothing else, and reading the id afterwards
    answers 404. *)
Theorem owner_deletes_recipe (env : Env) (req : Request) (st : Store) (r : Recipe.t) :
  NoDup (map Recipe._id (recipes st)) ->
  In r (recipes st) ->
  subject env req = Some (Recipe.ownerId r) ->
  ObjectId_new (params_id req) = Some (Recipe._id r) ->
  exists st',
    delete_recipe env req st = (Returned (respond 200 (message "Recipe deleted")), st') /\
    users st' = users st /\
    (forall x, In x (recipes st') <-> In x (recipes st) /\ Recipe._id x <> Recipe._id r) /\
    get_recipe req st' = (Returned (respond 404 (message "Recipe not found")), st').
Proof.
  intros Hnd Hin Hsubject Hid.
  assert (Hq : owned_by (Recipe._id r) (Recipe.ownerId r) r = true).
  { unfold owned_by. now rewrite !N.eqb_refl. }
  assert (Hkey : forall x, owned_by (Recipe._id r) (Recipe.ownerId r) x = true ->
                           Recipe._id x = Recipe._id r).
  { unfold owned_by. intros x Hx. apply andb_true_iff in Hx. now apply N.eqb_eq. }
  pose proof (deleteOne_some _ _ _ Hin Hq) as Hone.
  pose proof (deleteOne_unique Recipe._id _ _ _ Hnd Hin Hq Hkey) as Hleft.
  unfold delete_recipe, delete_recipe_handler.
  enter_route Hsubject.
  unfold try_catch, bind, attempt, recipes_deleteOne.
  rewrite Hverify. cbn. rewrite Hsub, Howner. cbn. rewrite Hid. cbn.
  destruct (deleteOne _ (recipes st)) as [n c']. simpl in Hone, Hleft. subst n. cbn.
  eexists. split; [reflexivity|]. split; [reflexivity|]. split; [exact Hleft|].
  rewrite (get_recipe_run req _ _ Hid). simpl. rewrite findOne_no_match; [reflexivity|].
  intros x Hx. apply N.eqb_neq. now apply Hleft.
Qed.

(** X11. Deleting an account cascades: with unique account ids, a valid token
    whose subject is a stored account gets 200 "Account deleted"; the store
    loses that account and every recipe it owns, and nothing else. The same
    request again is answered 404 and changes nothing. *)
Theorem delete_account_cascade (env : Env) (req : Request) (st : Store) (u : User.t) :
  NoDup (map User._id (users st)) ->
  In u (users st) ->
  subject env req = Some (User._id u) ->
  exists st',
    delete_account env req st = (Returned (respond 200 (message "Account deleted")), st') /\
    (forall a, In a (users st') <-> In a (users st) /\ User._id a <> User._id u) /\
    (forall r, In r (recipes st') <->
               In r (recipes st) /\ Recipe.ownerId r <> User._id u) /\
    delete_account env req st' = (Returned (respond 404 (message "User not found")), st').
Proof.
  intros Hnd Hin Hsubject.
  assert (Hq : (User._id u =? User._id u)%N = true) by apply N.eqb_refl.
  assert (Hkey : forall a, (User._id a =? User._id u)%N = true -> User._id a = User._id u).
  { intros a. apply N.eqb_eq. }
  pose proof (deleteOne_some (fun a => (User._id a =? User._id u)%N) _ _ Hin Hq) as Hone.
  pose proof (deleteOne_unique User._id (fun a => (User._id a =? User._id u)%N)
                _ _ Hnd Hin Hq Hkey) as Hleft.
  unfold delete_account, delete_account_handler.
  enter_route Hsubject.
  unfold try_catch, bind, attempt, recipes_deleteMany, users_deleteOne.
  rewrite Hverify. cbn. rewrite Hsub, Howner. cbn.
  destruct (deleteOne _ (users st)) as [n c']. simpl in Hone, Hleft. subst n. cbn.
  eexists. split; [reflexivity|]. split; [exact Hleft|]. split.
  - intros r. cbn. unfold deleteMany.
    rewrite filter_In, negb_true_iff, N.eqb_neq. reflexivity.
  - cbn. rewrite deleteOne_no_match.
    2:{ intros x Hx. apply N.eqb_neq. now apply Hleft. }
    pose proof (deleteMany_twice (fun r => (Recipe.ownerId r =? User._id u)%N)
                  (recipes st)) as Htwice.
    unfold deleteMany in *. cbn. now rewrite Htwice.
Qed.
End Composition.

Section Round_trips.
Context {lib : Libraries}.

(** X12. A registered account can log in by a key that is a string: after a
    201 from register, a login that gives the registered username (or email),
    a non-empty string, and the registered password, a string too, gets 200,
    the same sanitized account and a token signed for it, provided bcrypt
    verifies the password against the hash it made, a secret is configured,
    and no older account answers to that identifier by its username or email
    (the lookup takes the first match). *)
Theorem register_then_login (env : Env) (rnd rnd' : Entropy) (b b' : Credentials)
    (st st' : Store) (resp : Response) (i p secret : string) :
  register_handler rnd b st = (Returned resp, st') ->
  status resp = 201 ->
  password b = JStr p ->
  bcrypt_compare p (bcrypt_hash p (genSalt rnd)) = true ->
  given (JWT_SECRET env) secret ->
  sent (identifier_of b') i -> sent (password b') p ->
  username b = JStr i \/ email b = JStr i ->
  (forall a, In a (users st) ->
     matches_string i (User.username a) = false /\
     matches_string i (User.email a) = false) ->
  login_handler env rnd' b' st' =
    (Returned (respond 200
       (JObj [ ("user", json resp);
               ("token",
                JStr (jwt_sign (Jwt.mk (Some (ObjectId_toString (insertedId rnd)))
                                       (username b) (email b))
                               secret (randomUUID rnd'))) ])),
     st').
Proof.
  intros Hrun H201 Hp Hcmp Hsecret Hi Hp' Hmine Holder.
  destruct (register_anatomy rnd b st)
    as [(x & Hx & Hin) | (flt & hashed & _ & Hhash & _ & _ & Hok)].
  - rewrite Hx in Hrun. injection Hrun as <- <-. rewrite H201 in Hin.
    cbn in Hin. intuition discriminate.
  - rewrite Hok in Hrun. injection Hrun as <- <-.
    rewrite Hp in Hhash. injection Hhash as <-.
    rewrite (login_given env rnd' b' secret (sent_truthy _ _ Hi) (sent_truthy _ _ Hp')
               Hsecret).
    destruct Hi as [-> _], Hp' as [-> _].
    unfold login_attempt, try_catch, bind, attempt, users_findOne.
    rewrite or_username_email_strings. cbn [ret users].
    rewrite findOne_inserted.
    + cbn. now rewrite Hcmp.
    + intros a Ha. apply orb_false_iff. now apply Holder.
    + apply orb_true_iff. cbn.
      destruct Hmine as [-> | ->]; [left | right]; apply matches_string_refl.
Qed.
End Round_trips.

Section Idempotence.
Context {lib : Libraries}.

Lemma apply_set_present_twice (b : jsval) (r : Recipe.t) :
  apply_set (present_fields b) (apply_set (present_fields b) r) =
  apply_set (present_fields b) r.
Proof.
  rewrite !apply_set_present. cbv zeta. simpl.
  destruct (defined (field b "title")), (defined (field b "description")),
    (defined (field b "ingredients")), (defined (field b "instructions")); reflexivity.
Qed.

Lemma owned_by_apply_set (rid owner : ObjectId) (update : list (string * jsval))
    (r : Recipe.t) :
  owned_by rid owner (apply_set update r) = owned_by rid owner r.
Proof. unfold owned_by. now destruct (apply_set_keeps update r) as [-> ->]. Qed.

Lemma patch_recipe_run (env : Env) (req : Request) (st : Store) (owner rid : ObjectId)
    (update : list (string * jsval)) :
  subject env req = Some owner ->
  ObjectId_new (params_id req) = Some rid ->
  build_update (body req) = inr update ->
  patch_recipe env req st =
    (Returned
       (if (fst (updateOne (owned_by rid owner) (apply_set update) (recipes st)) =? 0)%nat
        then respond 404 (message "Recipe not found")
        else match findOne (fun r => (Recipe._id r =? rid)%N)
                     (snd (updateOne (owned_by rid owner) (apply_set update) (recipes st)))
             with
             | Some updated => respond 200 (Recipe.toObject updated)
             | None => respond 500 (message "Recipe update failed")
             end),
     {| users := users st;
        recipes := snd (updateOne (owned_by rid owner) (apply_set update) (recipes st)) |}).
Proof.
  intros Hsubject Hid Hupd. unfold patch_recipe, patch_recipe_handler.
  enter_route Hsubject. rewrite Hupd.
  unfold try_catch, bind, attempt, ObjectId_isValid, recipes_updateOne, recipes_findOne.
  rewrite Hverify. cbn. rewrite Hsub, Howner. cbn. rewrite Hid. cbn.
  destruct (updateOne _ _ (recipes st)) as [n c']. cbn.
  destruct (n =? 0)%nat; [reflexivity|]. unfold findOne. cbn. now destruct (find _ c').
Qed.

(** X13. PATCH is idempotent: the same request served again on the store it
    left gets the same answer and leaves the same store. *)
Theorem patch_idempotent (env : Env) (req : Request) (st : Store) :
  patch_recipe env req (snd (patch_recipe env req st)) = patch_recipe env req st.
Proof.
  destruct (patch_recipe_anatomy env req st)
    as [(x & Hx & _) | (o & rid & c' & u & Hsubj & Hid & Hupd & Hrun & Hfound & Hok)].
  - rewrite Hx. simpl. exact Hx.
  - assert (Hagain : updateOne (owned_by rid o) (apply_set (present_fields (body req))) c'
                     = (1, c')).
    { pose proof (updateOne_twice (owned_by rid o)
                    (apply_set (present_fields (body req))) (recipes st)
                    (fun d => owned_by_apply_set rid o _ d)
                    (apply_set_present_twice (body req))) as Htwice.
      rewrite Hrun in Htwice. exact Htwice. }
    rewrite Hok. simpl.
    rewrite (patch_recipe_run env req _ o rid _ Hsubj Hid Hupd). simpl.
    rewrite Hagain. simpl. now rewrite Hfound.
Qed.
End Idempotence.

Section Small_functions.
Context {lib : Libraries}.

(** X14. [sanitizeUser] keeps the remaining properties in their order, leaves
    an object with no [password] as it is, and applied twice is the same as
    once. *)
Theorem sanitizeUser_stable (user : list (string * jsval)) :
  sanitizeUser user = filter (fun kv => negb (fst kv =? "password")) user /\
  (has_prop "password" user = false -> sanitizeUser user = user) /\
  sanitizeUser (sanitizeUser user) = sanitizeUser user.
Proof.
  split; [|split].
  - induction user as [|[k v] user IH]; simpl; [reflexivity|].
    destruct (k =? "password"); simpl; now rewrite IH.
  - induction user as [|[k v] user IH]; simpl; [reflexivity|].
    destruct (k =? "password"); simpl; [discriminate|].
    intros Hno. now rewrite IH.
  - induction user as [|[k v] user IH]; simpl; [reflexivity|].
    destruct (k =? "password") eqn:Ek; simpl; [exact IH|].
    now rewrite Ek, IH.
Qed.

(** X15. The bearer token is exactly what follows ["Bearer "]: a token is
    read from a header if and only if the header is ["Bearer "] followed by
    that token. *)
Theorem bearer_iff (authHeader : option string) (token : string) :
  bearer authHeader = Some token <-> authHeader = Some ("Bearer " ++ token).
Proof.
  split; [apply bearer_inv | intros ->; apply bearer_header].
Qed.
End Small_functions.

Section Separation.
Context {lib : Libraries}.

(** X16. The two collections are kept apart. The recipe routes neither read
    nor change the accounts: their answer and the recipes they leave are the
    same whatever accounts are stored, so a token is enough to create a
    recipe even when its account is gone. Register and login neither read nor
    change the recipes. *)
Theorem collections_are_separate (env : Env) (rnd : Entropy) (call : Call)
    (us us' : list User.t) (rs rs' : list Recipe.t) :
  match call with
  | PostRecipe _ | PatchRecipe _ | DeleteRecipe _ | GetRecipe _ | GetRecipes =>
      fst (serve env rnd call {| users := us; recipes := rs |}) =
        fst (serve env rnd call {| users := us'; recipes := rs |}) /\
      recipes (snd (serve env rnd call {| users := us; recipes := rs |})) =
        recipes (snd (serve env rnd call {| users := us'; recipes := rs |})) /\
      users (snd (serve env rnd call {| users := us; recipes := rs |})) = us
  | PostRegister _ | PostLogin _ =>
      fst (serve env rnd call {| users := us; recipes := rs |}) =
        fst (serve env rnd call {| users := us; recipes := rs' |}) /\
      users (snd (serve env rnd call {| users := us; recipes := rs |})) =
        users (snd (serve env rnd call {| users := us; recipes := rs' |})) /\
      recipes (snd (serve env rnd call {| users := us; recipes := rs |})) = rs
  | GetTokenTest _ | DeleteAccount _ => True
  end.
Proof.
  destruct call as [b | b | req | req | req | req | req | req | ]; simpl; trivial.
  - unfold register_handler.
    destruct (negb _ || negb _ || negb _); [repeat split; reflexivity|].
    unfold register_attempt, try_catch, bind, attempt, users_findOne, users_insertOne,
      findOne.
    destruct (or_username_email _ _) as [filter|]; cbn; [|repeat split; reflexivity].
    destruct (find _ us); [repeat split; reflexivity|].
    destruct (hashPassword _ _) as [hashed|]; cbn; [|repeat split; reflexivity].
    cbn [users recipes]. destruct (insertOne _ _ us) as [c'|]; [|repeat split; reflexivity].
    cbn. destruct (find _ c'); repeat split; reflexivity.
  - unfold login_handler. cbv zeta.
    destruct (negb _ || negb _); [repeat split; reflexivity|].
    destruct (JWT_SECRET env) as [[|d secret]|]; try (repeat split; reflexivity).
    unfold login_attempt, try_catch, bind, attempt, users_findOne, findOne.
    destruct (or_username_email _ _) as [filter|]; cbn; [|repeat split; reflexivity].
    destruct (find _ us); [|repeat split; reflexivity].
    destruct (comparePassword _ _) as [[|]|]; repeat split; reflexivity.
  - unfold create_recipe, protected, requireAuth, create_recipe_handler, with_token.
    destruct (bearer (authorization req)) as [[|a token]|]; try (repeat split; reflexivity).
    destruct (JWT_SECRET env) as [[|b secret]|]; try (repeat split; reflexivity).
    destruct (jwt_verify _ _) as [payload|] eqn:Hv; [|repeat split; reflexivity].
    destruct (_ || _); [repeat split; reflexivity|].
    unfold try_catch, bind, attempt, recipes_insertOne, recipes_findOne, findOne.
    rewrite ?Hv. cbn.
    destruct (Jwt.sub payload) as [[|c sub]|]; try (repeat split; reflexivity).
    destruct (ObjectId_new (String c sub)) as [owner|]; cbn;
      [|repeat split; reflexivity].
    cbn [users recipes]. destruct (insertOne _ _ rs) as [c'|]; [|repeat split; reflexivity].
    cbn. destruct (find _ c'); repeat split; reflexivity.
  - unfold patch_recipe, protected, requireAuth, patch_recipe_handler, with_token.
    destruct (bearer (authorization req)) as [[|a token]|]; try (repeat split; reflexivity).
    destruct (JWT_SECRET env) as [[|b secret]|]; try (repeat split; reflexivity).
    destruct (jwt_verify _ _) as [payload|] eqn:Hv; [|repeat split; reflexivity].
    destruct (build_update (body req)) as [early|update]; [repeat split; reflexivity|].
    unfold try_catch, bind, attempt, recipes_updateOne, recipes_findOne, ObjectId_isValid,
      findOne.
    rewrite ?Hv. cbn.
    destruct (Jwt.sub payload) as [[|c sub]|]; try (repeat split; reflexivity).
    destruct (ObjectId_new (String c sub)) as [owner|]; cbn;
      [|repeat split; reflexivity].
    destruct (ObjectId_new (params_id req)) as [rid|]; cbn; [|repeat split; reflexivity].
    cbn [users recipes]. destruct (updateOne _ _ rs) as [n c']. cbn.
    destruct (n =? 0)%nat; [repeat split; reflexivity|].
    cbn. destruct (find _ c'); repeat split; reflexivity.
  - unfold delete_recipe, protected, requireAuth, delete_recipe_handler, with_token.
    destruct (bearer (authorization req)) as [[|a token]|]; try (repeat split; reflexivity).
    destruct (JWT_SECRET env) as [[|b secret]|]; try (repeat split; reflexivity).
    destruct (jwt_verify _ _) as [payload|] eqn:Hv; [|repeat split; reflexivity].
    unfold try_catch, bind, attempt, recipes_deleteOne.
    rewrite ?Hv. cbn.
    destruct (Jwt.sub payload) as [[|c sub]|]; try (repeat split; reflexivity).
    destruct (ObjectId_new (String c sub)) as [owner|]; cbn;
      [|repeat split; reflexivity].
    destruct (ObjectId_new (params_id req)) as [rid|]; cbn; [|repeat split; reflexivity].
    cbn [users recipes]. destruct (deleteOne _ rs) as [n c']. cbn.
    destruct (n =? 0)%nat; repeat split; reflexivity.
  - unfold get_recipe, try_catch, bind, attempt, recipes_findOne, findOne.
    destruct (ObjectId_new (params_id req)) as [rid|]; cbn; [|repeat split; reflexivity].
    destruct (find _ rs); repeat split; reflexivity.
  - repeat split.
Qed.
End Separation.

(** ** The further properties at work on the demonstration store *)

Lemma demo_store_consistent : consistent Demo.store.
Proof.
  repeat split; repeat constructor; simpl; intuition discriminate.
Defined.

(** Alice retitles her pancakes: the store changes, and the answer is 200. *)
Lemma store_changes_only_on_success_witness :
  let req := Demo.as_user "alice.jwt" "000000000000000000000051"
                          (JObj [("title", JStr "Crepes")]) in
  let crepes :=
    Recipe.mk Demo.pancakes_id (JStr "Crepes") (JStr "Thin ones")
              (JArr [JStr "flour"; JStr "milk"; JStr "eggs"]) (JStr "Whisk and fry.")
              Demo.alice_id (JStr "alice") in
  let after := {| users := users Demo.store; recipes := [crepes; Demo.stew] |} in
  @serve Demo.lib Demo.env Demo.rnd (PatchRecipe req) Demo.store =
    (Returned (respond 200 (Recipe.toObject crepes)), after) /\
  after <> Demo.store /\
  status (respond 200 (Recipe.toObject crepes)) = 200.
Proof.
  intros req crepes after.
  assert (Hrun : @serve Demo.lib Demo.env Demo.rnd (PatchRecipe req) Demo.store =
                 (Returned (respond 200 (Recipe.toObject crepes)), after)) by reflexivity.
  assert (Hst : after <> Demo.store) by discriminate.
  split; [exact Hrun|]. split; [exact Hst|].
  exact (@store_changes_only_on_success Demo.lib Demo.env Demo.rnd (PatchRecipe req)
           Demo.store after _ Hrun Hst).
Defined.

(** Bob's token does not let him delete Alice's pancakes. *)
Lemma foreign_recipes_untouched_witness :
  let call := DeleteRecipe (Demo.as_user "bob.jwt" "000000000000000000000051" JUndefined) in
  In Demo.pancakes (recipes (snd (@serve Demo.lib Demo.env Demo.rnd call Demo.store))).
Proof.
  intros call.
  apply (@foreign_recipes_untouched Demo.lib Demo.env Demo.rnd call Demo.store Demo.pancakes).
  - now left.
  - discriminate.
Defined.

(** Bob deletes his account; Alice's stays. *)
Lemma accounts_leave_by_own_token_witness :
  let call := DeleteAccount (Demo.as_user "bob.jwt" "" JUndefined) in
  In Demo.alice (users (snd (@serve Demo.lib Demo.env Demo.rnd call Demo.store))).
Proof.
  intros call.
  apply (@accounts_leave_by_own_token Demo.lib Demo.env Demo.rnd call Demo.store Demo.alice).
  - now left.
  - discriminate.
Defined.

(** The retitled pancakes keep their id and their owner. *)
Lemma recipe_owner_immutable_witness :
  let call := PatchRecipe (Demo.as_user "alice.jwt" "000000000000000000000051"
                                        (JObj [("title", JStr "Crepes")])) in
  let crepes :=
    Recipe.mk Demo.pancakes_id (JStr "Crepes") (JStr "Thin ones")
              (JArr [JStr "flour"; JStr "milk"; JStr "eggs"]) (JStr "Whisk and fry.")
              Demo.alice_id (JStr "alice") in
  (exists r, In r (recipes Demo.store) /\ Recipe._id r = Recipe._id crepes /\
             Recipe.ownerId r = Recipe.ownerId crepes /\
             Recipe.ownerUsername r = Recipe.ownerUsername crepes) \/
  (exists req, call = PostRecipe req /\ Recipe._id crepes = insertedId Demo.rnd /\
               @subject Demo.lib Demo.env req = Some (Recipe.ownerId crepes)).
Proof.
  intros call crepes.
  apply (@recipe_owner_immutable Demo.lib Demo.env Demo.rnd call Demo.store crepes).
  now left.
Defined.

(** Carol registers on the demonstration store, and so does an account whose
    username is the number 7: still consistent. *)
Lemma consistent_preserved_witness :
  let carol :=
    credentials (JObj [("username", JStr "carol"); ("email", JStr "carol@example.org");
                       ("password", JStr "rabbit")]) in
  let seven :=
    credentials (JObj [("username", JNum 7); ("email", JStr "seven@example.org");
                       ("password", JStr "rabbit")]) in
  let later := {| genSalt := "salt"; randomUUID := "7d1d"; insertedId := 0x78%N |} in
  consistent (@serve_all Demo.lib Demo.env
                [(Demo.rnd, PostRegister carol); (later, PostRegister seven)] Demo.store).
Proof.
  intros carol seven later.
  exact (proj1 (@consistent_preserved Demo.lib Demo.env
                  [(Demo.rnd, PostRegister carol); (later, PostRegister seven)])
           Demo.store demo_store_consistent).
Defined.

(** The stew is read back under its id. *)
Lemma get_recipe_finds_witness :
  @get_recipe Demo.lib (Demo.anonymous "000000000000000000000052") Demo.store =
    (Returned (respond 200 (Recipe.toObject Demo.stew)), Demo.store).
Proof.
  apply (@get_recipe_finds Demo.lib (Demo.anonymous "000000000000000000000052")
           Demo.store Demo.stew).
  - exact (proj2 (proj2 (proj2 demo_store_consistent))).
  - right. now left.
  - reflexivity.
Defined.

(** Alice's soup, created and read back. *)
Lemma create_then_get_witness :
  let req :=
    Demo.as_user "alice.jwt" ""
      (JObj [ ("title", JStr "Soup"); ("description", JStr "Hot");
              ("ingredients", JArr [JStr "water"]); ("instructions", JStr "Boil.") ]) in
  let soup :=
    Recipe.mk 0x77%N (JStr "Soup") (JStr "Hot") (JArr [JStr "water"]) (JStr "Boil.")
              Demo.alice_id (JStr "alice") in
  let after := {| users := users Demo.store; recipes := [Demo.pancakes; Demo.stew; soup] |} in
  @get_recipe Demo.lib (Demo.anonymous "000000000000000000000077") after =
    (Returned (respond 200 (Recipe.toObject soup)), after).
Proof.
  intros req soup after.
  assert (Hrun : @create_recipe Demo.lib Demo.env Demo.rnd req Demo.store =
                 (Returned (respond 201 (Recipe.toObject soup)), after)) by reflexivity.
  exact (@create_then_get Demo.lib Demo.env Demo.rnd req
           (Demo.anonymous "000000000000000000000077") Demo.store after _
           Hrun eq_refl eq_refl).
Defined.

(** The retitled pancakes, read back. *)
Lemma patch_then_get_witness :
  let req := Demo.as_user "alice.jwt" "000000000000000000000051"
                          (JObj [("title", JStr "Crepes")]) in
  let crepes :=
    Recipe.mk Demo.pancakes_id (JStr "Crepes") (JStr "Thin ones")
              (JArr [JStr "flour"; JStr "milk"; JStr "eggs"]) (JStr "Whisk and fry.")
              Demo.alice_id (JStr "alice") in
  let after := {| users := users Demo.store; recipes := [crepes; Demo.stew] |} in
  @get_recipe Demo.lib req after = (Returned (respond 200 (Recipe.toObject crepes)), after).
Proof.
  intros req crepes after.
  assert (Hrun : @patch_recipe Demo.lib Demo.env req Demo.store =
                 (Returned (respond 200 (Recipe.toObject crepes)), after)) by reflexivity.
  exact (@patch_then_get Demo.lib Demo.env req Demo.store after _ Hrun eq_refl).
Defined.

(** Alice deletes her pancakes. *)
Lemma owner_deletes_recipe_witness :
  let req := Demo.as_user "alice.jwt" "000000000000000000000051" JUndefined in
  exists st',
    @delete_recipe Demo.lib Demo.env req Demo.store =
      (Returned (respond 200 (message "Recipe deleted")), st') /\
    users st' = users Demo.store /\
    (forall x, In x (recipes st') <->
               In x (recipes Demo.store) /\ Recipe._id x <> Demo.pancakes_id) /\
    @get_recipe Demo.lib req st' = (Returned (respond 404 (message "Recipe not found")), st').
Proof.
  intros req.
  apply (@owner_deletes_recipe Demo.lib Demo.env req Demo.store Demo.pancakes).
  - exact (proj2 (proj2 (proj2 demo_store_consistent))).
  - now left.
  - reflexivity.
  - reflexivity.
Defined.

(** Alice deletes her account, and asks again. *)
Lemma delete_account_cascade_witness :
  let req := Demo.as_user "alice.jwt" "" JUndefined in
  exists st',
    @delete_account Demo.lib Demo.env req Demo.store =
      (Returned (respond 200 (message "Account deleted")), st') /\
    (forall a, In a (users st') <-> In a (users Demo.store) /\ User._id a <> Demo.alice_id) /\
    (forall r, In r (recipes st') <->
               In r (recipes Demo.store) /\ Recipe.ownerId r <> Demo.alice_id) /\
    @delete_account Demo.lib Demo.env req st' =
      (Returned (respond 404 (message "User not found")), st').
Proof.
  intros req.
  apply (@delete_account_cascade Demo.lib Demo.env req Demo.store Demo.alice).
  - exact (proj1 demo_store_consistent).
  - now left.
  - reflexivity.
Defined.

(** Carol registers and logs in with her email. *)
Lemma register_then_login_witness :
  let carol :=
    credentials (JObj [("username", JStr "carol"); ("email", JStr "carol@example.org");
                       ("password", JStr "rabbit")]) in
  let by_email :=
    credentials (JObj [("email", JStr "carol@example.org"); ("password", JStr "rabbit")]) in
  let account := JObj [ ("_id", JOid 0x77%N); ("username", JStr "carol");
                        ("email", JStr "carol@example.org") ] in
  let after :=
    {| users := [Demo.alice; Demo.bob;
                 User.mk 0x77%N (JStr "carol") (JStr "carol@example.org") "salt$rabbit"];
       recipes := recipes Demo.store |} in
  @login_handler Demo.lib Demo.env Demo.rnd by_email after =
    (Returned (respond 200 (JObj [("user", account); ("token", JStr "carol.jwt")])), after).
Proof.
  intros carol by_email account after.
  assert (Hrun : @register_handler Demo.lib Demo.rnd carol Demo.store =
                 (Returned (respond 201 account), after)) by reflexivity.
  assert (Hsecret : given (JWT_SECRET Demo.env) "s3cret")
    by (split; [reflexivity | discriminate]).
  assert (Hi : sent (@identifier_of by_email) "carol@example.org")
    by (split; [reflexivity | discriminate]).
  assert (Hp : sent (password by_email) "rabbit") by (split; [reflexivity | discriminate]).
  assert (Holder : forall a, In a (users Demo.store) ->
                     matches_string "carol@example.org" (User.username a) = false /\
                     matches_string "carol@example.org" (User.email a) = false).
  { intros a [<- | [<- | []]]; split; reflexivity. }
  exact (@register_then_login Demo.lib Demo.env Demo.rnd Demo.rnd carol by_email
           Demo.store after _ "carol@example.org" "rabbit" "s3cret"
           Hrun eq_refl eq_refl eq_refl Hsecret Hi Hp (or_intror eq_refl) Holder).
Defined.

(** An object with no password, and one with. *)
Lemma sanitizeUser_stable_witness :
  let bare := [("_id", JOid 7%N); ("username", JStr "dora")] in
  sanitizeUser bare = bare.
Proof.
  intros bare. exact (proj1 (proj2 (sanitizeUser_stable bare)) eq_refl).
Defined.

Lemma bearer_iff_witness : bearer (Some "Bearer abc.def") = Some "abc.def".
Proof. exact (proj2 (bearer_iff (Some "Bearer abc.def") "abc.def") eq_refl). Defined.

Section Accounts.
Context {lib : Libraries}.

Lemma findOne_app_found {D : Type} (q : D -> bool) (c more : list D) (d : D) :
  findOne q c = Some d -> findOne q (c ++ more) = Some d.
Proof.
  unfold findOne. induction c as [|x c IH]; simpl; [discriminate|].
  destruct (q x); [trivial | exact IH].
Qed.

(** X17. After an account is deleted its credentials no longer log in: with
    unique account ids, once DELETE /api/account has been served for an
    account, a login by an identifier that only that account answered to is
    answered 401 "Invalid credentials", whatever the password. *)
Theorem deleted_account_cannot_login (env : Env) (rnd : Entropy) (req : Request)
    (b : Credentials) (st : Store) (u : User.t) (secret : string)
    (only : User.t -> bool) :
  NoDup (map User._id (users st)) ->
  In u (users st) ->
  subject env req = Some (User._id u) ->
  given (JWT_SECRET env) secret ->
  truthy (identifier_of b) = true -> truthy (password b) = true ->
  or_username_email (identifier_of b) (identifier_of b) = Some only ->
  (forall a, In a (users st) -> only a = true -> User._id a = User._id u) ->
  login_handler env rnd b (snd (delete_account env req st)) =
    (Returned (respond 401 (message "Invalid credentials")), snd (delete_account env req st)).
Proof.
  intros Hnd Hin Hsubject Hsecret Hi Hp Hfilter Honly.
  destruct (delete_account_anatomy env req st)
    as [(x & Hx & Hstatus) | (uid & n & c' & Hsubj & Hrun & Hok)].
  - exfalso. revert Hx Hstatus. unfold delete_account, delete_account_handler.
    enter_route Hsubject.
    unfold try_catch, bind, attempt, recipes_deleteMany, users_deleteOne.
    rewrite Hverify. cbn. rewrite Hsub, Howner. cbn.
    destruct (deleteOne _ (users st)) as [n c']. cbn.
    destruct (n =? 0)%nat; intros [= <- _]; cbn; intuition discriminate.
  - rewrite Hok. simpl. rewrite Hsubject in Hsubj. injection Hsubj as <-.
    rewrite (login_given env rnd b secret Hi Hp Hsecret).
    unfold login_attempt, try_catch, bind, attempt, users_findOne.
    rewrite Hfilter. cbn.
    rewrite findOne_no_match; [reflexivity|].
    intros a Ha.
    replace c' with (snd (deleteOne (fun a => (User._id a =? User._id u)%N) (users st)))
      in Ha by now rewrite Hrun.
    pose proof (deleteOne_incl _ _ _ Ha) as Hwas.
    assert (Hgone : User._id a <> User._id u).
    { apply (deleteOne_gone (fun a => (User._id a =? User._id u)%N) User._id
               (users st) u Hnd Hin (N.eqb_refl _)); [|exact Ha].
      intros y. apply N.eqb_eq. }
    destruct (only a) eqn:Hmatch; [|reflexivity].
    now elim Hgone; apply Honly.
Qed.

(** X18. Login takes the first account that matches: when an identifier
    already finds an account, accounts registered later never change the
    answer to a login by that identifier, even one whose username or email
    is that very identifier. *)
Theorem login_first_match (env : Env) (rnd : Entropy) (b : Credentials) (st : Store)
    (later : list User.t) (filter : User.t -> bool) (older : User.t) :
  or_username_email (identifier_of b) (identifier_of b) = Some filter ->
  findOne filter (users st) = Some older ->
  fst (login_handler env rnd b {| users := users st ++ later; recipes := recipes st |}) =
  fst (login_handler env rnd b st).
Proof.
  intros Hfilter Hfound. unfold login_handler. cbv zeta.
  destruct (negb _ || negb _); [reflexivity|].
  destruct (JWT_SECRET env) as [[|d secret]|]; try reflexivity.
  unfold login_attempt, try_catch, bind, attempt, users_findOne.
  rewrite Hfilter. cbn [ret users].
  rewrite (findOne_app_found _ _ later _ Hfound), Hfound.
  now destruct (comparePassword _ _) as [[|]|].
Qed.

(** X19. A password that is not a string gets no verdict from bcrypt, which
    throws on it. With a secret configured and an identifier the store
    accepts, a login with such a password is answered 500 "Login failed" when
    the identifier finds an account and 401 "Invalid credentials" when it
    finds none: the two answers differ. The store is unchanged. *)
Theorem login_password_not_a_string (env : Env) (rnd : Entropy) (b : Credentials)
    (st : Store) (secret : string) (filter : User.t -> bool) :
  given (JWT_SECRET env) secret ->
  truthy (identifier_of b) = true -> truthy (password b) = true ->
  bcrypt_data (password b) = None ->
  or_username_email (identifier_of b) (identifier_of b) = Some filter ->
  login_handler env rnd b st =
    (Returned (match findOne filter (users st) with
               | Some _ => respond 500 (message "Login failed")
               | None => respond 401 (message "Invalid credentials")
               end), st).
Proof.
  intros Hsecret Hi Hp Hdata Hfilter.
  rewrite (login_given env rnd b secret Hi Hp Hsecret).
  unfold login_attempt, try_catch, bind, attempt, users_findOne, comparePassword.
  rewrite Hfilter, Hdata. cbn [ret].
  now destruct (findOne filter (users st)).
Qed.

(** X20. Registration with a password that is not a string inserts nothing:
    when no stored account answers to the username or the email, bcrypt
    throws on the password and the answer is 500 "Registration failed"; when
    one does, the answer is the 409, the password never being looked at. *)
Theorem register_password_not_a_string (rnd : Entropy) (b : Credentials) (st : Store)
    (filter : User.t -> bool) :
  truthy (username b) = true -> truthy (email b) = true -> truthy (password b) = true ->
  bcrypt_data (password b) = None ->
  or_username_email (username b) (email b) = Some filter ->
  register_handler rnd b st =
    (Returned (match findOne filter (users st) with
               | Some _ => respond 409 (message "User already exists")
               | None => respond 500 (message "Registration failed")
               end), st).
Proof.
  intros Hu He Hp Hdata Hfilter.
  rewrite (register_given rnd b Hu He Hp).
  unfold register_attempt, try_catch, bind, attempt, users_findOne, hashPassword.
  rewrite Hfilter, Hdata. cbn [ret].
  now destruct (findOne filter (users st)).
Qed.

(** X21. When the store refuses the filter made of the body's values, the
    lookup throws and the handler's [catch] answers: 500 "Registration
    failed" from register, 500 "Login failed" from login, the store
    unchanged. *)
Theorem refused_filter_is_500 (env : Env) (rnd : Entropy) (b : Credentials) (st : Store) :
  (truthy (username b) = true -> truthy (email b) = true -> truthy (password b) = true ->
   or_username_email (username b) (email b) = None ->
   register_handler rnd b st =
     (Returned (respond 500 (message "Registration failed")), st)) /\
  (forall secret,
     given (JWT_SECRET env) secret ->
     truthy (identifier_of b) = true -> truthy (password b) = true ->
     or_username_email (identifier_of b) (identifier_of b) = None ->
     login_handler env rnd b st = (Returned (respond 500 (message "Login failed")), st)).
Proof.
  split.
  - intros Hu He Hp Hfilter. rewrite (register_given rnd b Hu He Hp).
    unfold register_attempt, try_catch, bind, attempt. now rewrite Hfilter.
  - intros secret Hsecret Hi Hp Hfilter.
    rewrite (login_given env rnd b secret Hi Hp Hsecret).
    unfold login_attempt, try_catch, bind, attempt. now rewrite Hfilter.
Qed.
End Accounts.

(** Alice is gone, and so is her login. *)
Lemma deleted_account_cannot_login_witness :
  let req := Demo.as_user "alice.jwt" "" JUndefined in
  let creds :=
    credentials (JObj [("username", JStr "alice"); ("password", JStr "wonderland")]) in
  let after := {| users := [Demo.bob]; recipes := [Demo.stew] |} in
  @login_handler Demo.lib Demo.env Demo.rnd creds after =
    (Returned (respond 401 (message "Invalid credentials")), after).
Proof.
  intros req creds after.
  assert (Hsecret : given (JWT_SECRET Demo.env) "s3cret")
    by (split; [reflexivity | discriminate]).
  pose (only := fun a : User.t =>
                  matches_string "alice" (User.username a)
                  || matches_string "alice" (User.email a)).
  assert (Honly : forall a, In a (users Demo.store) -> only a = true ->
                    User._id a = User._id Demo.alice).
  { intros a [<- | [<- | []]] H; [reflexivity | discriminate H]. }
  exact (@deleted_account_cannot_login Demo.lib Demo.env Demo.rnd req creds Demo.store
           Demo.alice "s3cret" only
           (proj1 demo_store_consistent) (or_introl eq_refl) eq_refl
           Hsecret eq_refl eq_refl eq_refl Honly).
Defined.

(** A newcomer who takes Alice's email as a username does not get her login. *)
Lemma login_first_match_witness :
  let creds :=
    credentials (JObj [("username", JStr "alice@example.org");
                       ("password", JStr "rabbit")]) in
  let newcomer :=
    User.mk 0x78%N (JStr "alice@example.org") (JStr "n@example.org") "salt$rabbit" in
  fst (@login_handler Demo.lib Demo.env Demo.rnd creds
         {| users := users Demo.store ++ [newcomer]; recipes := recipes Demo.store |}) =
  Returned (respond 401 (message "Invalid credentials")).
Proof.
  intros creds newcomer.
  rewrite (@login_first_match Demo.lib Demo.env Demo.rnd creds Demo.store [newcomer]
             (fun a => matches_string "alice@example.org" (User.username a)
                       || matches_string "alice@example.org" (User.email a))
             Demo.alice eq_refl eq_refl).
  reflexivity.
Defined.

(** Alice's name with the number 12345 for a password. *)
Lemma login_password_not_a_string_witness :
  let creds :=
    credentials (JObj [("username", JStr "alice"); ("password", JNum 12345)]) in
  @login_handler Demo.lib Demo.env Demo.rnd creds Demo.store =
    (Returned (respond 500 (message "Login failed")), Demo.store).
Proof.
  intros creds.
  assert (Hsecret : given (JWT_SECRET Demo.env) "s3cret")
    by (split; [reflexivity | discriminate]).
  exact (@login_password_not_a_string Demo.lib Demo.env Demo.rnd creds Demo.store "s3cret"
           (fun a => matches_string "alice" (User.username a)
                     || matches_string "alice" (User.email a))
           Hsecret eq_refl eq_refl eq_refl eq_refl).
Defined.

(** Carol, new to the store, with [true] for a password. *)
Lemma register_password_not_a_string_witness :
  let carol :=
    credentials (JObj [("username", JStr "carol"); ("email", JStr "carol@example.org");
                       ("password", JBool true)]) in
  @register_handler Demo.lib Demo.rnd carol Demo.store =
    (Returned (respond 500 (message "Registration failed")), Demo.store).
Proof.
  intros carol.
  exact (@register_password_not_a_string Demo.lib Demo.rnd carol Demo.store
           (fun a => matches_string "carol" (User.username a)
                     || matches_string "carol@example.org" (User.email a))
           eq_refl eq_refl eq_refl eq_refl eq_refl).
Defined.

(** A username that is an operator the store does not know. *)
Lemma refused_filter_is_500_witness :
  let creds :=
    credentials (JObj [("username", JObj [("$foo", JNum 1)]);
                       ("email", JStr "x@example.org"); ("password", JStr "rabbit")]) in
  @register_handler Demo.lib Demo.rnd creds Demo.store =
    (Returned (respond 500 (message "Registration failed")), Demo.store) /\
  @login_handler Demo.lib Demo.env Demo.rnd creds Demo.store =
    (Returned (respond 500 (message "Login failed")), Demo.store).
Proof.
  intros creds.
  assert (Hsecret : given (JWT_SECRET Demo.env) "s3cret")
    by (split; [reflexivity | discriminate]).
  destruct (@refused_filter_is_500 Demo.lib Demo.env Demo.rnd creds Demo.store)
    as [Hregister Hlogin].
  split.
  - exact (Hregister eq_refl eq_refl eq_refl eq_refl).
  - exact (Hlogin "s3cret" Hsecret eq_refl eq_refl eq_refl).
Defined.
